(** * Geodesic donut creation: a shallow embedding of [createDonut.py]

    The development follows the three life-cycle methods of
    [CreateDonutAlgorithm]: [prepareAlgorithm] (run configuration),
    [processFeature] (one point feature in, zero or one donut feature out)
    and [postProcessAlgorithm] (end-of-run summary).

    Numbers are what Python has: [float] is IEEE-754 binary64 (Rocq's
    primitive floats, round-to-nearest-even), [int] is an unbounded
    integer ([Z]).  Exceptions are explicit: a collaborator that may raise
    returns [option], and the [try ... except Exception] of
    [processFeature] is a handler of the small state-and-exception monad
    [M] below, whose state is the algorithm object [self]. *)

From Stdlib Require Import ZArith List String Bool Lia Floats Uint63 DecimalString.
Import ListNotations.

Set Warnings "-inexact-float".

Local Open Scope float_scope.

(** ** Data model *)

Module QgsPointXY.
(** [QgsPointXY(x, y)]: in the geographic frame [x] is the longitude and
    [y] the latitude, in decimal degrees. *)
Record t : Type := make { x : float; y : float }.
End QgsPointXY.

Abbreviation Ring := (list QgsPointXY.t).

(** The geometries the algorithm reads and builds.  The constructors carry
    the names of the [QgsGeometry] factory functions of the source. *)
Inductive QgsGeometry : Type :=
| nullGeometry
| fromPointXY (p : QgsPointXY.t)
| fromMultiPointXY (ps : list QgsPointXY.t)
| fromPolygonXY (rings : list Ring)
| fromMultiPolylineXY (lines : list Ring).

(** [QgsGeometry.asPoint()] raises unless the geometry is a single point. *)
Definition asPoint (g : QgsGeometry) : option QgsPointXY.t :=
  match g with
  | fromPointXY p => Some p
  | _ => None
  end.

Inductive QVariant : Type :=
| QNull
| QInt (z : Z)
| QDouble (d : float)
| QString (s : string).

Record QgsFeature : Type := mkFeature {
  geometry : QgsGeometry;
  attributes : list QVariant
}.

Definition setGeometry (f : QgsFeature) (g : QgsGeometry) : QgsFeature :=
  {| geometry := g; attributes := attributes f |}.

Definition setAttributes (f : QgsFeature) (a : list QVariant) : QgsFeature :=
  {| geometry := geometry f; attributes := a |}.

(** The expression context of a feature-based algorithm carries the feature
    under evaluation; everything else in it is fixed for the run. *)
Definition QgsExpressionContext : Type := QgsFeature.

Definition QgsCoordinateReferenceSystem : Type := string.

(** [settings.epsg4326 = QgsCoordinateReferenceSystem('EPSG:4326')]. *)
Definition epsg4326 : QgsCoordinateReferenceSystem := "EPSG:4326"%string.

(** [QgsCoordinateTransform(src, dst, QgsProject.instance())]. *)
Record QgsCoordinateTransform : Type := mkTransform {
  sourceCrs_of : QgsCoordinateReferenceSystem;
  destinationCrs_of : QgsCoordinateReferenceSystem
}.

Inductive FeedbackEntry : Type :=
| reportError (msg : string)
| pushInfo (msg : string).

Definition QgsProcessingFeedback : Type := list FeedbackEntry.

(** ** Collaborators outside [createDonut.py]

    The geodesic solver (geographiclib), the coordinate transforms and the
    dynamic properties (QGIS), and the helpers of the plugin's [utils]
    module are interfaces here; every theorem of the generic part holds for
    any implementation of them. *)
Class Externals : Type := {
  (** [geod.Direct(lat, lon, azi, s12, LATITUDE | LONGITUDE)], returning
      [(lat2, lon2)]; [None] when the call raises. *)
  Direct : float -> float -> float -> float -> option (float * float);
  (** [QgsCoordinateTransform.transform]; [None] when it raises. *)
  transform : QgsCoordinateTransform -> QgsPointXY.t -> option QgsPointXY.t;
  (** A dynamic (data-defined) parameter and its evaluation
      [valueAsDouble(context, default) -> (value, ok)]. *)
  QgsProperty : Type;
  valueAsDouble : QgsProperty -> QgsExpressionContext -> float -> float * bool;
  (** [utils.conversionToMeters(units)]. *)
  conversionToMeters : Z -> float;
  (** [utils.hasIdlCrossing(pts)]. *)
  hasIdlCrossing : Ring -> bool;
  (** [utils.makeIdlCrossingsPositive(pts, flag)]; the source relies on the
      in-place update of [pts], returned here as the new list. *)
  makeIdlCrossingsPositive : Ring -> bool -> Ring;
  (** [utils.tr]. *)
  tr : string -> string
}.

(** Python's [float(n)] for an [int] in the 64-bit range (exact up to
    2^53, which covers every C [int] that [parameterAsInt] returns). *)
Definition float_of_int (n : Z) : float :=
  match n with
  | Z0 => 0
  | Zpos _ => of_uint63 (Uint63.of_Z n)
  | Zneg p => - of_uint63 (Uint63.of_Z (Zpos p))
  end.

(** Python's [str(n)] for an [int]. *)
Definition str (n : Z) : string := NilZero.string_of_int (Z.to_int n).

(** The outcome of a computation that touches no attribute of [self]: a
    value, a raised exception, or an exhausted iteration bound. *)
Inductive outcome (A : Type) : Type :=
| Done (a : A)
| Raised
| Timeout.

Arguments Done {A} a.
Arguments Raised {A}.
Arguments Timeout {A}.

Section CreateDonut.

Context {E : Externals}.

(** The algorithm's input source. *)
Record QgsProcessingFeatureSource : Type := mkSource {
  sourceCrs : QgsCoordinateReferenceSystem;
  featureCount : Z;
  getFeatures : list QgsFeature
}.

(** The [parameters] dictionary as [prepareAlgorithm] reads it: the
    [parameterAs...] value of every key, and for the two radii the
    property object when [isDynamic] holds. *)
Record Parameters : Type := mkParameters {
  PrmShapeType : Z;
  PrmOuterRadius : float;
  PrmOuterRadiusDynamic : option QgsProperty;
  PrmInnerRadius : float;
  PrmInnerRadiusDynamic : option QgsProperty;
  PrmUnitsOfMeasure : Z;
  PrmDrawingSegments : Z;
  PrmExportInputGeometry : bool;
  INPUT : QgsProcessingFeatureSource
}.

(** The attributes of [self]. *)
Record CreateDonutAlgorithm : Type := mkSelf {
  shape_type : Z;
  export_geom : bool;
  outer_radius : float;
  outer_radius_dyn : bool;
  outer_radius_property : option QgsProperty;
  inner_radius : float;
  inner_radius_dyn : bool;
  inner_radius_property : option QgsProperty;
  measure_factor : float;
  inner_radius_converted : float;
  outer_radius_converted : float;
  pt_spacing : float;
  total_features : Z;
  geom_to_4326 : option QgsCoordinateTransform;
  to_sink_crs : option QgsCoordinateTransform;
  num_bad : Z
}.

Definition set_num_bad (self : CreateDonutAlgorithm) (n : Z) : CreateDonutAlgorithm :=
  {| shape_type := shape_type self;
     export_geom := export_geom self;
     outer_radius := outer_radius self;
     outer_radius_dyn := outer_radius_dyn self;
     outer_radius_property := outer_radius_property self;
     inner_radius := inner_radius self;
     inner_radius_dyn := inner_radius_dyn self;
     inner_radius_property := inner_radius_property self;
     measure_factor := measure_factor self;
     inner_radius_converted := inner_radius_converted self;
     outer_radius_converted := outer_radius_converted self;
     pt_spacing := pt_spacing self;
     total_features := total_features self;
     geom_to_4326 := geom_to_4326 self;
     to_sink_crs := to_sink_crs self;
     num_bad := n |}.

(** [initParameters]: only [shape_type] and [export_geom] are assigned; the
    other attributes do not exist yet and are placeholders here. *)
Definition initParameters : CreateDonutAlgorithm :=
  {| shape_type := 0%Z;
     export_geom := false;
     outer_radius := 0;
     outer_radius_dyn := false;
     outer_radius_property := None;
     inner_radius := 0;
     inner_radius_dyn := false;
     inner_radius_property := None;
     measure_factor := 0;
     inner_radius_converted := 0;
     outer_radius_converted := 0;
     pt_spacing := 0;
     total_features := 0%Z;
     geom_to_4326 := None;
     to_sink_crs := None;
     num_bad := 0%Z |}.

(** ** [prepareAlgorithm]

    Returns [None] when the method raises ([360.0 / segments] with
    [segments = 0] is a [ZeroDivisionError]); otherwise the returned
    boolean, the updated [self] and the feedback log. *)
Definition prepareAlgorithm (self : CreateDonutAlgorithm) (parameters : Parameters)
    (feedback : QgsProcessingFeedback)
  : option (bool * CreateDonutAlgorithm * QgsProcessingFeedback) :=
  let shape_type' := PrmShapeType parameters in
  let outer_radius' := PrmOuterRadius parameters in
  if outer_radius' <=? 0 then
    Some (false,
          {| shape_type := shape_type';
             export_geom := export_geom self;
             outer_radius := outer_radius';
             outer_radius_dyn := outer_radius_dyn self;
             outer_radius_property := outer_radius_property self;
             inner_radius := inner_radius self;
             inner_radius_dyn := inner_radius_dyn self;
             inner_radius_property := inner_radius_property self;
             measure_factor := measure_factor self;
             inner_radius_converted := inner_radius_converted self;
             outer_radius_converted := outer_radius_converted self;
             pt_spacing := pt_spacing self;
             total_features := total_features self;
             geom_to_4326 := geom_to_4326 self;
             to_sink_crs := to_sink_crs self;
             num_bad := num_bad self |},
          feedback ++ [reportError "Outer radius parameter must be greater than 0"])
  else
    let inner_radius' := PrmInnerRadius parameters in
    let segments := PrmDrawingSegments parameters in
    let units := PrmUnitsOfMeasure parameters in
    let measure_factor' := conversionToMeters units in
    if (segments =? 0)%Z then None
    else
      let source := INPUT parameters in
      let src_crs := sourceCrs source in
      let bridged := negb (String.eqb src_crs epsg4326) in
      Some (true,
            {| shape_type := shape_type';
               export_geom := PrmExportInputGeometry parameters;
               outer_radius := outer_radius';
               outer_radius_dyn :=
                 match PrmOuterRadiusDynamic parameters with Some _ => true | None => false end;
               outer_radius_property :=
                 match PrmOuterRadiusDynamic parameters with
                 | Some p => Some p
                 | None => outer_radius_property self
                 end;
               inner_radius := inner_radius';
               inner_radius_dyn :=
                 match PrmInnerRadiusDynamic parameters with Some _ => true | None => false end;
               inner_radius_property :=
                 match PrmInnerRadiusDynamic parameters with
                 | Some p => Some p
                 | None => inner_radius_property self
                 end;
               measure_factor := measure_factor';
               inner_radius_converted := inner_radius' * measure_factor';
               outer_radius_converted := outer_radius' * measure_factor';
               pt_spacing := 360.0 / float_of_int segments;
               total_features := featureCount source;
               geom_to_4326 :=
                 if bridged then Some (mkTransform src_crs epsg4326) else None;
               to_sink_crs :=
                 if bridged then Some (mkTransform epsg4326 src_crs) else None;
               num_bad := 0%Z |},
            feedback).

(** ** The state-and-exception monad of the per-feature code

    The state is [self]; [Except] is a raised Python exception (the state
    at the raise is kept, as an exception does not roll back attribute
    updates); [OutOfFuel] says that the iteration bound given to the
    [while] loop was too small to finish it. *)
Inductive result (A : Type) : Type :=
| Return (a : A) (self : CreateDonutAlgorithm)
| Except (self : CreateDonutAlgorithm)
| OutOfFuel.

Arguments Return {A} a self.
Arguments Except {A} self.
Arguments OutOfFuel {A}.

Definition M (A : Type) : Type := CreateDonutAlgorithm -> result A.

Definition ret {A} (a : A) : M A := fun self => Return a self.

Definition bind {A B} (m : M A) (k : A -> M B) : M B :=
  fun self =>
    match m self with
    | Return a self' => k a self'
    | Except self' => Except self'
    | OutOfFuel => OutOfFuel
    end.

Definition raise {A} : M A := fun self => Except self.

Definition get_self : M CreateDonutAlgorithm := fun self => Return self self.

(** [self.num_bad += 1] *)
Definition incr_num_bad : M unit :=
  fun self => Return tt (set_num_bad self (num_bad self + 1)%Z).

(** A call that returns or raises. *)
Definition call {A} (o : option A) : M A :=
  match o with
  | Some a => ret a
  | None => raise
  end.

(** [try: body  except Exception: handler] *)
Definition try_except {A} (body handler : M A) : M A :=
  fun self =>
    match body self with
    | Except self' => handler self'
    | r => r
    end.

Notation "x <- m ;; k" := (bind m (fun x => k))
  (at level 61, m at next level, right associativity).
Notation "m ;; k" := (bind m (fun _ => k))
  (at level 61, right associativity).

(** ** [processFeature], lines 212-222: the two rings *)

Definition run_outcome {A} (o : outcome A) : M A :=
  fun self =>
    match o with
    | Done a => Return a self
    | Raised => Except self
    | Timeout => OutOfFuel
    end.

(** [g = geod.Direct(lat, lon, angle, rad, ...); QgsPointXY(g['lon2'], g['lat2'])] *)
Definition direct_point (lat lon angle rad : float) : option QgsPointXY.t :=
  match Direct lat lon angle rad with
  | Some (lat2, lon2) => Some (QgsPointXY.make lon2 lat2)
  | None => None
  end.

(** The loop [while angle < 360: ...; angle += self.pt_spacing], entered
    with the current [angle] and the points appended so far.  [fuel]
    bounds the number of iterations. *)
Fixpoint while_angle (fuel : nat) (spacing lat lon inner_rad outer_rad angle : float)
    (pts_in pts_out : Ring) : outcome (Ring * Ring) :=
  match fuel with
  | O => Timeout
  | S fuel' =>
      if angle <? 360 then
        match (if negb (inner_rad =? 0)
               then option_map (fun p => pts_in ++ [p]) (direct_point lat lon angle inner_rad)
               else Some pts_in) with
        | None => Raised
        | Some pts_in' =>
            match direct_point lat lon angle outer_rad with
            | None => Raised
            | Some p =>
                while_angle fuel' spacing lat lon inner_rad outer_rad (angle + spacing)
                  pts_in' (pts_out ++ [p])
            end
        end
      else Done (pts_in, pts_out)
  end.

(** [pts.append(pts[0])]; [pts[0]] raises [IndexError] on an empty list. *)
Definition append_first (pts : Ring) : option Ring :=
  match pts with
  | [] => None
  | p :: _ => Some (pts ++ [p])
  end.

(** Lines 212-222: [angle = 0], the loop, and the closing of both rings. *)
Definition build_rings (fuel : nat) (spacing lat lon inner_rad outer_rad : float)
  : outcome (Ring * Ring) :=
  match while_angle fuel spacing lat lon inner_rad outer_rad 0 [] [] with
  | Done (pts_in, pts_out) =>
      match (if negb (inner_rad =? 0) then append_first pts_in else Some pts_in) with
      | None => Raised
      | Some pts_in' =>
          match append_first pts_out with
          | None => Raised
          | Some pts_out' => Done (pts_in', pts_out')
          end
      end
  | Raised => Raised
  | Timeout => Timeout
  end.

(** Lines 223-227: the antimeridian check on the outer ring. *)
Definition normalize_rings (inner_rad : float) (pts_in pts_out : Ring) : Ring * Ring :=
  let crosses_idl := hasIdlCrossing pts_out in
  if crosses_idl then
    (if negb (inner_rad =? 0) then makeIdlCrossingsPositive pts_in true else pts_in,
     makeIdlCrossingsPositive pts_out true)
  else (pts_in, pts_out).

(** [for x, pt_out in enumerate(pts): pts[x] = t.transform(pt_out)] *)
Fixpoint transform_all (t : QgsCoordinateTransform) (pts : Ring) : option Ring :=
  match pts with
  | [] => Some []
  | p :: rest =>
      match transform t p with
      | None => None
      | Some q => option_map (cons q) (transform_all t rest)
      end
  end.

(** Lines 229-235: back to the layer's reference system. *)
Definition to_sink (self : CreateDonutAlgorithm) (inner_rad : float) (pts_in pts_out : Ring)
  : option (Ring * Ring) :=
  match to_sink_crs self with
  | Some t =>
      match (if negb (inner_rad =? 0) then transform_all t pts_in else Some pts_in) with
      | None => None
      | Some pts_in' => option_map (pair pts_in') (transform_all t pts_out)
      end
  | None => Some (pts_in, pts_out)
  end.

(** Lines 237-246: the output geometry. *)
Definition donut_geometry (self : CreateDonutAlgorithm) (inner_rad : float)
    (pts_in pts_out : Ring) : QgsGeometry :=
  if (shape_type self =? 0)%Z then
    if inner_rad =? 0 then fromPolygonXY [pts_out]
    else fromPolygonXY [pts_out; pts_in]
  else
    if inner_rad =? 0 then fromMultiPolylineXY [pts_out]
    else fromMultiPolylineXY [pts_out; pts_in].

(** Lines 247-251: the original coordinates as two more attributes. *)
Definition export_attributes (self : CreateDonutAlgorithm) (feature : QgsFeature)
    (pt_orig_x pt_orig_y : float) : QgsFeature :=
  if export_geom self then
    setAttributes feature (attributes feature ++ [QDouble pt_orig_x; QDouble pt_orig_y])
  else feature.

(** Lines 212-251 and the final [return [feature]], once both radii are
    known. *)
Definition make_donut (fuel : nat) (feature : QgsFeature) (pt_orig_x pt_orig_y : float)
    (lat lon inner_rad outer_rad : float) : M (list QgsFeature) :=
  self <- get_self ;;
  rings <- run_outcome (build_rings fuel (pt_spacing self) lat lon inner_rad outer_rad) ;;
  let '(pts_in, pts_out) := normalize_rings inner_rad (fst rings) (snd rings) in
  rings' <- call (to_sink self inner_rad pts_in pts_out) ;;
  let feature' := setGeometry feature (donut_geometry self inner_rad (fst rings') (snd rings')) in
  ret [export_attributes self feature' pt_orig_x pt_orig_y].

(** Lines 196-203: the inner radius of this feature; [None] is the
    evaluation failure that skips the feature. *)
Definition resolve_inner_radius (self : CreateDonutAlgorithm) (context : QgsExpressionContext)
  : option (option float) :=
  if inner_radius_dyn self then
    match inner_radius_property self with
    | None => None
    | Some property =>
        let '(inner_rad, e) := valueAsDouble property context (inner_radius self) in
        if negb e then Some None
        else Some (Some (inner_rad * measure_factor self))
    end
  else Some (Some (inner_radius_converted self)).

(** Lines 204-211: the outer radius of this feature; [None] is the
    evaluation failure or the non-positive radius that skips the feature. *)
Definition resolve_outer_radius (self : CreateDonutAlgorithm) (context : QgsExpressionContext)
  : option (option float) :=
  if outer_radius_dyn self then
    match outer_radius_property self with
    | None => None
    | Some property =>
        let '(outer_rad, e) := valueAsDouble property context (outer_radius self) in
        let outer_rad := outer_rad * measure_factor self in
        if negb e || (outer_rad <=? 0) then Some None
        else Some (Some outer_rad)
    end
  else Some (Some (outer_radius_converted self)).

(** Lines 192-193: [if self.geom_to_4326: pt = self.geom_to_4326.transform(...)] *)
Definition to_4326 (self : CreateDonutAlgorithm) (pt : QgsPointXY.t) : option QgsPointXY.t :=
  match geom_to_4326 self with
  | Some t => transform t pt
  | None => Some pt
  end.

(** The body of the [try] block, lines 186-251, with the [return [feature]]
    that follows it. *)
Definition try_block (fuel : nat) (feature : QgsFeature) (context : QgsExpressionContext)
  : M (list QgsFeature) :=
  pt <- call (asPoint (geometry feature)) ;;
  let pt_orig_x := QgsPointXY.x pt in
  let pt_orig_y := QgsPointXY.y pt in
  self <- get_self ;;
  pt <- call (to_4326 self pt) ;;
  let lat := QgsPointXY.y pt in
  let lon := QgsPointXY.x pt in
  inner <- call (resolve_inner_radius self context) ;;
  match inner with
  | None => incr_num_bad ;; ret []
  | Some inner_rad =>
      outer <- call (resolve_outer_radius self context) ;;
      match outer with
      | None => incr_num_bad ;; ret []
      | Some outer_rad =>
          make_donut fuel feature pt_orig_x pt_orig_y lat lon inner_rad outer_rad
      end
  end.

(** ** [processFeature] *)
Definition processFeature (fuel : nat) (feature : QgsFeature) (context : QgsExpressionContext)
  : M (list QgsFeature) :=
  try_except (try_block fuel feature context) (incr_num_bad ;; ret []).

(** ** [postProcessAlgorithm] *)
Definition postProcessAlgorithm (self : CreateDonutAlgorithm) (feedback : QgsProcessingFeedback)
  : QgsProcessingFeedback :=
  if negb (num_bad self =? 0)%Z then
    feedback ++
      [pushInfo (tr (str (num_bad self) ++ " out of " ++ str (total_features self)
                      ++ " features had invalid parameters and were ignored."))]
  else feedback.

(** ** The run

    The calling protocol of [QgsProcessingFeatureBasedAlgorithm]:
    [prepareAlgorithm] first, and nothing more when it returns [False];
    otherwise [processFeature] on every feature of the source in order
    (the expression context set to that feature), the returned features
    going to the sink; [postProcessAlgorithm] last. *)
Fixpoint processFeatures (fuel : nat) (features : list QgsFeature) : M (list QgsFeature) :=
  match features with
  | [] => ret []
  | feature :: rest =>
      out <- processFeature fuel feature feature ;;
      more <- processFeatures fuel rest ;;
      ret (out ++ more)
  end.

Inductive run_result : Type :=
| Aborted (feedback : QgsProcessingFeedback)
| Completed (sink : list QgsFeature) (self : CreateDonutAlgorithm)
    (feedback : QgsProcessingFeedback)
| Crashed
| Unfinished.

Definition processAlgorithm (fuel : nat) (parameters : Parameters) : run_result :=
  match prepareAlgorithm initParameters parameters [] with
  | None => Crashed
  | Some (false, _, feedback) => Aborted feedback
  | Some (true, self, feedback) =>
      match processFeatures fuel (getFeatures (INPUT parameters)) self with
      | Return sink self' => Completed sink self' (postProcessAlgorithm self' feedback)
      | Except _ => Crashed
      | OutOfFuel => Unfinished
      end
  end.

End CreateDonut.

Arguments Return {E A} a self.
Arguments Except {E A} self.
Arguments OutOfFuel {E A}.

(** ** The sink's description and the declared parameters

    [outputWkbType], [outputFields] and the [addParameter] calls of
    [initParameters]. *)

Module QgsWkbTypes.
Inductive t : Type := Unknown | Point | MultiPoint | LineString | MultiLineString | Polygon.
End QgsWkbTypes.

(** [QgsGeometry.wkbType()] of what the factory functions build. *)
Definition wkbType (g : QgsGeometry) : QgsWkbTypes.t :=
  match g with
  | nullGeometry => QgsWkbTypes.Unknown
  | fromPointXY _ => QgsWkbTypes.Point
  | fromMultiPointXY _ => QgsWkbTypes.MultiPoint
  | fromPolygonXY _ => QgsWkbTypes.Polygon
  | fromMultiPolylineXY _ => QgsWkbTypes.MultiLineString
  end.

(** The rings or lines a geometry is made of. *)
Definition rings_of_geometry (g : QgsGeometry) : list Ring :=
  match g with
  | fromPolygonXY rings => rings
  | fromMultiPolylineXY lines => lines
  | _ => []
  end.




Inductive NumberType : Type := DoubleNumber | IntegerNumber.

(** The three kinds of parameter [initParameters] declares, with the
    keyword arguments it gives. *)
Inductive QgsProcessingParameterDefinition : Type :=
| QgsProcessingParameterEnum (name description : string) (options : list string)
    (defaultValue : Z) (optional : bool)
| QgsProcessingParameterNumber (name description : string) (type : NumberType)
    (defaultValue : QVariant) (minValue : float) (optional : bool) (isDynamic : bool)
| QgsProcessingParameterBoolean (name description : string) (defaultValue : bool)
    (optional : bool).

(** The declared minimum of the number parameter called [key]. *)
Fixpoint minValue_of (key : string) (definitions : list QgsProcessingParameterDefinition)
  : option float :=
  match definitions with
  | [] => None
  | QgsProcessingParameterNumber name _ _ _ minValue _ _ :: rest =>
      if String.eqb name key then Some minValue else minValue_of key rest
  | _ :: rest => minValue_of key rest
  end.

(** The lower-bound test a number parameter applies to a value, both as
    doubles: the value is refused when it is below the minimum
    ([num < min]); a parameter without minimum refuses nothing. *)
Definition not_below (minValue : option float) (value : float) : bool :=
  match minValue with
  | Some m => negb (value <? m)
  | None => true
  end.

Section Declarations.

Context {E : Externals}.

(** [settings.getGeomNames] and [utils.DISTANCE_LABELS], both outside
    [createDonut.py]. *)
Variable getGeomNames : list string -> string * string.
Variable DISTANCE_LABELS : list string.

(** [SHAPE_TYPE = [tr("Polygon"), tr("Line")]] *)
Definition SHAPE_TYPE : list string := [tr "Polygon"; tr "Line"].

(** Lines 67-70. *)
Definition outputWkbType (self : CreateDonutAlgorithm) (input_wkb_type : QgsWkbTypes.t)
  : QgsWkbTypes.t :=
  if (shape_type self =? 0)%Z then QgsWkbTypes.Polygon else QgsWkbTypes.LineString.


(** Lines 85-146: the parameters added by [initParameters], in order. *)
Definition parameterDefinitions : list QgsProcessingParameterDefinition :=
  [ QgsProcessingParameterEnum "ShapeType" (tr "Shape type") SHAPE_TYPE 0 false;
    QgsProcessingParameterNumber "OuterRadius" (tr "Outer radius") DoubleNumber
      (QDouble 20.0) 0 false true;
    QgsProcessingParameterNumber "InnerRadius" (tr "Inner radius") DoubleNumber
      (QDouble 10.0) 0 false true;
    QgsProcessingParameterEnum "UnitsOfMeasure" (tr "Radius units") DISTANCE_LABELS 0 false;
    QgsProcessingParameterNumber "DrawingSegments" (tr "Number of drawing segments")
      IntegerNumber (QInt 36) 4 true false;
    QgsProcessingParameterBoolean "ExportInputGeometry"
      (tr "Add input geometry fields to output table") false true ].

End Declarations.

(** The azimuths the loop of [processFeature] visits, from [angle] on:
    the loop's control skeleton, without the solver calls. *)
Fixpoint azimuths (fuel : nat) (spacing angle : float) : option (list float) :=
  match fuel with
  | O => None
  | S fuel' =>
      if angle <? 360 then option_map (cons angle) (azimuths fuel' spacing (angle + spacing))
      else Some []
  end.

(** The points of a ring, azimuth by azimuth. *)
Definition traced {E : Externals} (lat lon rad : float) (azs : list float) (pts : Ring) : Prop :=
  Forall2 (fun angle p => direct_point lat lon angle rad = Some p) azs pts.

(** A ring whose last point is its first. *)
Definition closed (pts : Ring) : Prop := exists p rest, pts = p :: rest ++ [p].

(** The points of one list taken through a transform, one by one. *)
Definition transformed {E : Externals} (t : QgsCoordinateTransform) (pts pts' : Ring) : Prop :=
  Forall2 (fun p q => transform t p = Some q) pts pts'.

(** The state of [self] after [self.num_bad += 1]. *)
Definition counted_bad {E : Externals} (self : CreateDonutAlgorithm) : CreateDonutAlgorithm :=
  set_num_bad self (num_bad self + 1)%Z.

(** The features a call handed back, when it returned. *)
Definition emitted {E : Externals} {A : Type} (r : result A) : option A :=
  match r with
  | Return a _ => Some a
  | _ => None
  end.

(** The per-feature errors of [processFeature]: a data-defined radius
    whose evaluation fails, a data-defined outer radius that is not
    positive once converted, and any exception raised inside the [try]
    block. *)
Inductive per_feature_error {E : Externals} (fuel : nat) (self : CreateDonutAlgorithm)
    (feature : QgsFeature) (context : QgsExpressionContext) : Prop :=
| inner_expression_failed (property : QgsProperty) (value : float) :
    inner_radius_dyn self = true ->
    inner_radius_property self = Some property ->
    valueAsDouble property context (inner_radius self) = (value, false) ->
    per_feature_error fuel self feature context
| outer_expression_failed (property : QgsProperty) (value : float) :
    outer_radius_dyn self = true ->
    outer_radius_property self = Some property ->
    valueAsDouble property context (outer_radius self) = (value, false) ->
    per_feature_error fuel self feature context
| outer_radius_not_positive (property : QgsProperty) (value : float) (ok : bool) :
    outer_radius_dyn self = true ->
    outer_radius_property self = Some property ->
    valueAsDouble property context (outer_radius self) = (value, ok) ->
    (value * measure_factor self <=? 0) = true ->
    per_feature_error fuel self feature context
| exception_raised (self_then : CreateDonutAlgorithm) :
    try_block fuel feature context self = Except self_then ->
    per_feature_error fuel self feature context.

(** The end-of-run message. *)
Definition summary {E : Externals} (self : CreateDonutAlgorithm) : FeedbackEntry :=
  pushInfo (tr (str (num_bad self) ++ " out of " ++ str (total_features self)
                 ++ " features had invalid parameters and were ignored.")).

(** The two ways the rings are wrapped into a geometry. *)
Definition two_ring_geometry {E : Externals} (self : CreateDonutAlgorithm)
    (pts_in pts_out : Ring) : QgsGeometry :=
  if (shape_type self =? 0)%Z then fromPolygonXY [pts_out; pts_in]
  else fromMultiPolylineXY [pts_out; pts_in].

Definition one_ring_geometry {E : Externals} (self : CreateDonutAlgorithm)
    (pts_out : Ring) : QgsGeometry :=
  if (shape_type self =? 0)%Z then fromPolygonXY [pts_out]
  else fromMultiPolylineXY [pts_out].

(** ** A concrete set of collaborators

    Used to run the embedding on explicit inputs.  The two antimeridian
    helpers live in the plugin's [utils] module, which is not part of the
    sources at hand; they follow the specification's description. *)
Module Sample.

(** Alternating power series, [terms] terms after the first:
    [term * (1 - x2/((k+1)(k+2)) + ...)]. *)
Fixpoint series (terms : nat) (k term sum x2 : float) : float :=
  match terms with
  | O => sum
  | S n =>
      let term' := - (term * x2) / ((k + 1) * (k + 2)) in
      series n (k + 2) term' (sum + term') x2
  end.

Definition radians (deg : float) : float := deg * 0.017453292519943295.
Definition sin (t : float) : float := series 24 1 t t (t * t).
Definition cos (t : float) : float := series 24 0 1 1 (t * t).

(** Longitudes are reported in [-180, 180]. *)
Definition wrap180 (lon : float) : float :=
  if 180 <? lon then lon - 360
  else if lon <? -180 then lon + 360
  else lon.

(** A local planar solution of the direct problem on WGS84 (metres per
    degree at the equator), adequate for short distances at low
    latitudes.  It never raises. *)
Definition planarDirect (lat lon azi s12 : float) : option (float * float) :=
  let lat2 := lat + s12 * cos (radians azi) / 110574.0 in
  let lon2 := lon + s12 * sin (radians azi) / (111319.49 * cos (radians lat)) in
  Some (lat2, wrap180 lon2).

(** WGS 84 / World Equidistant Cylindrical: metres per degree on both
    axes.  Any other pair of reference systems raises. *)
Definition metres_per_degree : float := 111319.49079327357.

Definition cylindrical : QgsCoordinateReferenceSystem := "EPSG:4087"%string.

Definition cylindricalTransform (t : QgsCoordinateTransform) (p : QgsPointXY.t) : option QgsPointXY.t :=
  if (String.eqb (sourceCrs_of t) cylindrical && String.eqb (destinationCrs_of t) epsg4326)%bool
  then Some (QgsPointXY.make (QgsPointXY.x p / metres_per_degree)
                             (QgsPointXY.y p / metres_per_degree))
  else if (String.eqb (sourceCrs_of t) epsg4326 && String.eqb (destinationCrs_of t) cylindrical)%bool
  then Some (QgsPointXY.make (QgsPointXY.x p * metres_per_degree)
                             (QgsPointXY.y p * metres_per_degree))
  else None.

(** A data-defined radius read from the attribute at a given position. *)
Definition FieldProperty : Type := nat.

Definition fieldValueAsDouble (field : FieldProperty) (context : QgsExpressionContext)
    (default : float) : float * bool :=
  match nth_error (attributes context) field with
  | Some (QDouble d) => (d, true)
  | Some (QInt z) => (float_of_int z, true)
  | _ => (default, false)
  end.

(** Kilometres, metres, centimetres. *)
Definition unitsToMeters (units : Z) : float :=
  if (units =? 0)%Z then 1000.0
  else if (units =? 2)%Z then 0.01
  else 1.0.

(** Modelled from the spec: [utils.hasIdlCrossing] is missing from the
    sources.  "A ring crosses the antimeridian when consecutive points'
    longitudes jump by more than 180 degrees in absolute difference." *)
Fixpoint longitudeJump (pts : Ring) : bool :=
  match pts with
  | p :: ((q :: _) as rest) =>
      (180 <? abs (QgsPointXY.x q - QgsPointXY.x p)) || longitudeJump rest
  | _ => false
  end.

(** Modelled from the spec: [utils.makeIdlCrossingsPositive] is missing
    from the sources.  "Every longitude below 0 degrees (when normalizing
    to the positive side) is shifted by +360 degrees."  The other side is
    not described and never requested by [processFeature]; the ring is
    returned as it is then. *)
Definition shiftNegativeLongitudes (pts : Ring) (positive : bool) : Ring :=
  if positive then
    map (fun p => if QgsPointXY.x p <? 0
                  then QgsPointXY.make (QgsPointXY.x p + 360) (QgsPointXY.y p)
                  else p) pts
  else pts.

Definition externals : Externals :=
  {| Direct := planarDirect;
     transform := cylindricalTransform;
     QgsProperty := FieldProperty;
     valueAsDouble := fieldValueAsDouble;
     conversionToMeters := unitsToMeters;
     hasIdlCrossing := longitudeJump;
     makeIdlCrossingsPositive := shiftNegativeLongitudes;
     tr := fun s => s |}.

#[local] Existing Instance externals.

(** A point layer in EPSG:4326 with one feature at the given position. *)
Definition point_feature (lon lat : float) (attrs : list QVariant) : QgsFeature :=
  {| geometry := fromPointXY (QgsPointXY.make lon lat); attributes := attrs |}.

Definition parameters (shape : Z) (outer inner : float)
    (outer_dyn inner_dyn : option FieldProperty) (segments : Z)
    (crs : QgsCoordinateReferenceSystem) (features : list QgsFeature) : Parameters :=
  {| PrmShapeType := shape;
     PrmOuterRadius := outer;
     PrmOuterRadiusDynamic := outer_dyn;
     PrmInnerRadius := inner;
     PrmInnerRadiusDynamic := inner_dyn;
     PrmUnitsOfMeasure := 0;
     PrmDrawingSegments := segments;
     PrmExportInputGeometry := false;
     INPUT := {| sourceCrs := crs;
                 featureCount := Z.of_nat (List.length features);
                 getFeatures := features |} |}.

(** The configured algorithm object for these parameters. *)
Definition prepared (p : Parameters) : CreateDonutAlgorithm :=
  match prepareAlgorithm initParameters p [] with
  | Some (_, self, _) => self
  | None => initParameters
  end.

(** The specification's scenario A: centre (0, 0), 20 km and 10 km, a
    polygon, with a chosen number of drawing segments. *)
Definition at_origin : QgsFeature := point_feature 0 0 [].

Definition scenarioA (segments : Z) : Parameters :=
  parameters 0 20 10 None None segments epsg4326 [at_origin].

(** A centre close to the antimeridian, as in the specification's
    scenario B (on the equator here). *)
Definition near_antimeridian (attrs : list QVariant) : QgsFeature :=
  point_feature 179.9 0 attrs.

(** An outer ring of 50 km reaches across the antimeridian, one of 5 km
    does not. *)
Definition wide : Parameters :=
  parameters 0 50 10 None None 4 epsg4326 [near_antimeridian []].

Definition inverted : Parameters :=
  parameters 0 5 50 None None 4 epsg4326 [near_antimeridian []].

(** No inner radius: a disc. *)
Definition disc : Parameters :=
  parameters 0 20 0 None None 4 epsg4326 [at_origin].

(** Both radii read from the attributes, inner first; line output. *)
Definition by_attributes (features : list QgsFeature) : Parameters :=
  parameters 1 20 10 (Some 1%nat) (Some 0%nat) 4 epsg4326 features.

Definition usual : QgsFeature := point_feature 0 0 [QDouble 10; QDouble 20].
Definition unreadable : QgsFeature := point_feature 0 0 [QString "n/a"; QDouble 20].
Definition negative_inner : QgsFeature := point_feature 0 0 [QDouble (-10); QDouble 20].

(** The specification's scenario C. *)
Definition scenarioC : Parameters :=
  parameters 0 (-5) 10 None None 36 epsg4326 [at_origin].

(** What a call or a loop returned, for inspection. *)
Definition rings_of (o : outcome (Ring * Ring)) : Ring * Ring :=
  match o with
  | Done rings => rings
  | _ => ([], [])
  end.

Definition feature_of (r : result (list QgsFeature)) : QgsFeature :=
  match r with
  | Return (f :: _) _ => f
  | _ => mkFeature nullGeometry []
  end.

Definition angles_of (o : option (list float)) : list float :=
match o with
| Some azs => azs
| None => []
end.

(** The second ring of a two-ring geometry. *)
Definition inner_ring (g : QgsGeometry) : Ring :=
  match g with
  | fromPolygonXY [_; pts_in] => pts_in
  | fromMultiPolylineXY [_; pts_in] => pts_in
  | _ => []
  end.

Definition has_negative_longitude (pts : Ring) : bool :=
  existsb (fun p => QgsPointXY.x p <? 0) pts.

(** A layer in metres with one labelled point on the equator, one degree
    east of Greenwich; lines, with the input coordinates exported. *)
Definition in_metres : QgsFeature :=
  {| geometry := fromPointXY (QgsPointXY.make metres_per_degree 0);
     attributes := [QString "a"] |}.

Definition exporting : Parameters :=
  {| PrmShapeType := 1;
     PrmOuterRadius := 20;
     PrmInnerRadius := 10;
     PrmOuterRadiusDynamic := None;
     PrmInnerRadiusDynamic := None;
     PrmUnitsOfMeasure := 0;
     PrmDrawingSegments := 4;
     PrmExportInputGeometry := true;
     INPUT := {| sourceCrs := cylindrical; featureCount := 1; getFeatures := [in_metres] |} |}.



(** An outer radius at the declared minimum. *)
Definition zero_outer : Parameters :=
  parameters 0 0 10 None None 36 epsg4326 [at_origin].

(** The sample collaborators with a solver that raises at distance 0. *)
Definition no_zero_distance : Externals :=
  {| Direct := fun lat lon azi s12 =>
                 if s12 =? 0 then None else planarDirect lat lon azi s12;
     transform := cylindricalTransform;
     QgsProperty := FieldProperty;
     valueAsDouble := fieldValueAsDouble;
     conversionToMeters := unitsToMeters;
     hasIdlCrossing := longitudeJump;
     makeIdlCrossingsPositive := shiftNegativeLongitudes;
     tr := fun s => s |}.

End Sample.

(** Whether, for [n] drawing segments, the loop finishes within [n + 2]
    iterations having visited [n] or [n + 1] azimuths. *)
Definition loop_finishes (n : nat) : bool :=
  match azimuths (n + 2) (360.0 / float_of_int (Z.of_nat n)) 0 with
  | Some azs => Nat.eqb (List.length azs) n || Nat.eqb (List.length azs) (S n)
  | None => false
  end.

(** * Properties *)

(** ** Comparisons of binary64 values *)

Lemma ltb_true_eqb_false (a b : float) : (a <? b) = true -> (a =? b) = false.
Proof.
  rewrite FloatAxioms.ltb_spec, FloatAxioms.eqb_spec. unfold SFltb, SFeqb.
  destruct (SFcompare (Prim2SF a) (Prim2SF b)) as [[ | | ] | ]; congruence.
Qed.

Lemma ltb_true_leb_true (a b : float) : (a <? b) = true -> (a <=? b) = true.
Proof.
  rewrite FloatAxioms.ltb_spec, FloatAxioms.leb_spec. unfold SFltb, SFleb.
  destruct (SFcompare (Prim2SF a) (Prim2SF b)) as [[ | | ] | ]; congruence.
Qed.

Section Properties.

Context {E : Externals}.

(** ** The azimuth loop *)

Lemma azimuths_more_fuel (fuel : nat) (spacing : float) :
  forall angle azs, azimuths fuel spacing angle = Some azs ->
  forall extra, azimuths (fuel + extra) spacing angle = Some azs.
Proof.
  induction fuel as [ | fuel IH]; intros angle azs H extra; simpl in *.
  - discriminate.
  - destruct (angle <? 360); [ | assumption].
    destruct (azimuths fuel spacing (angle + spacing)) as [rest | ] eqn:Hrest;
      [ | discriminate].
    rewrite (IH _ _ Hrest extra). assumption.
Qed.

Lemma azimuths_unique (spacing : float) (fuel1 fuel2 : nat) (angle : float)
    (azs1 azs2 : list float) :
  azimuths fuel1 spacing angle = Some azs1 ->
  azimuths fuel2 spacing angle = Some azs2 ->
  azs1 = azs2.
Proof.
  intros H1 H2.
  pose proof (azimuths_more_fuel _ _ _ _ H1 fuel2) as K1.
  pose proof (azimuths_more_fuel _ _ _ _ H2 fuel1) as K2.
  rewrite Nat.add_comm in K2. congruence.
Qed.

Lemma traced_length lat lon rad azs pts :
  traced lat lon rad azs pts -> List.length pts = List.length azs.
Proof. intros H. symmetry. exact (Forall2_length H). Qed.

Lemma traced_app lat lon rad azs1 pts1 azs2 pts2 :
  traced lat lon rad azs1 pts1 -> traced lat lon rad azs2 pts2 ->
  traced lat lon rad (azs1 ++ azs2) (pts1 ++ pts2).
Proof. apply Forall2_app. Qed.

Lemma while_angle_done (fuel : nat) (spacing lat lon inner_rad outer_rad : float) :
  forall angle pts_in pts_out pts_in' pts_out',
  while_angle fuel spacing lat lon inner_rad outer_rad angle pts_in pts_out
    = Done (pts_in', pts_out') ->
  exists azs new_in new_out,
    azimuths fuel spacing angle = Some azs /\
    pts_in' = pts_in ++ new_in /\
    pts_out' = pts_out ++ new_out /\
    traced lat lon outer_rad azs new_out /\
    (if inner_rad =? 0 then new_in = [] else traced lat lon inner_rad azs new_in).
Proof.
  induction fuel as [ | fuel IH]; intros angle pts_in pts_out pts_in' pts_out' H;
    simpl in H; [discriminate | ].
  simpl. destruct (angle <? 360).
  - destruct (inner_rad =? 0) eqn:Hzero; simpl in H.
    + destruct (direct_point lat lon angle outer_rad) as [p | ] eqn:Hp; [ | discriminate].
      destruct (IH _ _ _ _ _ H) as (azs & new_in & new_out & Ha & Hin & Hout & Ht & Hi).
      exists (angle :: azs), new_in, (p :: new_out). rewrite Ha. simpl.
      repeat split; try assumption.
      * rewrite Hout, <- app_assoc. reflexivity.
      * constructor; assumption.
    + destruct (direct_point lat lon angle inner_rad) as [q | ] eqn:Hq;
        simpl in H; [ | discriminate].
      destruct (direct_point lat lon angle outer_rad) as [p | ] eqn:Hp; [ | discriminate].
      destruct (IH _ _ _ _ _ H) as (azs & new_in & new_out & Ha & Hin & Hout & Ht & Hi).
      exists (angle :: azs), (q :: new_in), (p :: new_out). rewrite Ha. simpl.
      repeat split.
      * rewrite Hin, <- app_assoc. reflexivity.
      * rewrite Hout, <- app_assoc. reflexivity.
      * constructor; assumption.
      * constructor; assumption.
  - injection H as <- <-.
    exists [], [], []. rewrite !app_nil_r.
    repeat split; try constructor. destruct (inner_rad =? 0); constructor.
Qed.

(** The loop is entered at least once: [0 < 360]. *)
Lemma azimuths_from_zero (fuel : nat) (spacing : float) (azs : list float) :
  azimuths fuel spacing 0 = Some azs -> exists rest, azs = 0 :: rest.
Proof.
  destruct fuel as [ | fuel]; simpl; [discriminate | ].
  change (0 <? 360) with true. cbv iota.
  destruct (azimuths fuel spacing (0 + spacing)) as [rest | ]; simpl; [ | discriminate].
  intros [= <-]. exists rest. reflexivity.
Qed.

Lemma append_first_some (pts pts' : Ring) :
  append_first pts = Some pts' -> exists p rest, pts = p :: rest /\ pts' = pts ++ [p].
Proof.
  destruct pts as [ | p rest]; simpl; [discriminate | ].
  intros [= <-]. exists p, rest. split; reflexivity.
Qed.

(** What [build_rings] returns: both rings follow the visited azimuths and
    are closed by a copy of their first point, the one at azimuth 0. *)
Lemma build_rings_done (fuel : nat) (spacing lat lon inner_rad outer_rad : float)
    (pts_in pts_out : Ring) :
  build_rings fuel spacing lat lon inner_rad outer_rad = Done (pts_in, pts_out) ->
  exists azs,
    azimuths fuel spacing 0 = Some azs /\
    traced lat lon outer_rad (azs ++ [0]) pts_out /\
    (if inner_rad =? 0 then pts_in = []
     else traced lat lon inner_rad (azs ++ [0]) pts_in).
Proof.
  unfold build_rings. intros H.
  destruct (while_angle fuel spacing lat lon inner_rad outer_rad 0 [] [])
    as [[raw_in raw_out] | | ] eqn:Hloop; try discriminate.
  destruct (while_angle_done _ _ _ _ _ _ _ _ _ _ _ Hloop)
    as (azs & new_in & new_out & Ha & Hin & Hout & Ht & Hi).
  simpl in Hin, Hout. subst raw_in raw_out.
  destruct (azimuths_from_zero _ _ _ Ha) as [rest ->].
  exists (0 :: rest). split; [assumption | ].
  destruct (inner_rad =? 0) eqn:Hzero; simpl in H.
  - destruct (append_first new_out) as [closed | ] eqn:Hc; [ | discriminate].
    injection H as <- <-.
    destruct (append_first_some _ _ Hc) as (p & more & -> & ->).
    split; [ | assumption].
    apply traced_app; [assumption | ].
    inversion Ht; subst. repeat constructor. assumption.
  - destruct (append_first new_in) as [closed_in | ] eqn:Hci; [ | discriminate].
    destruct (append_first new_out) as [closed | ] eqn:Hc; [ | discriminate].
    injection H as <- <-.
    destruct (append_first_some _ _ Hc) as (p & more & -> & ->).
    destruct (append_first_some _ _ Hci) as (q & more_in & -> & ->).
    split.
    + apply traced_app; [assumption | ].
      inversion Ht; subst. repeat constructor. assumption.
    + apply traced_app; [assumption | ].
      inversion Hi; subst. repeat constructor. assumption.
Qed.

End Properties.

Section FeatureProperties.

Context {E : Externals}.

(** ** The paths through [processFeature] *)

(** The emitting path: every step succeeds. *)
Lemma processFeature_success (fuel : nat) (feature : QgsFeature)
    (context : QgsExpressionContext) (self : CreateDonutAlgorithm)
    (pt c : QgsPointXY.t) (inner_rad outer_rad : float) (pts_in pts_out pts_in' pts_out' : Ring) :
  asPoint (geometry feature) = Some pt ->
  to_4326 self pt = Some c ->
  resolve_inner_radius self context = Some (Some inner_rad) ->
  resolve_outer_radius self context = Some (Some outer_rad) ->
  build_rings fuel (pt_spacing self) (QgsPointXY.y c) (QgsPointXY.x c) inner_rad outer_rad
    = Done (pts_in, pts_out) ->
  to_sink self inner_rad (fst (normalize_rings inner_rad pts_in pts_out))
                         (snd (normalize_rings inner_rad pts_in pts_out))
    = Some (pts_in', pts_out') ->
  processFeature fuel feature context self
    = Return [export_attributes self
                (setGeometry feature (donut_geometry self inner_rad pts_in' pts_out'))
                (QgsPointXY.x pt) (QgsPointXY.y pt)] self.
Proof.
  intros Hpt Hc Hin Hout Hrings Hsink.
  unfold processFeature, try_except, try_block, make_donut, bind, call, get_self.
  rewrite Hpt. unfold ret at 1. rewrite Hc. unfold ret at 1.
  rewrite Hin. unfold ret at 1. rewrite Hout. unfold ret at 1.
  rewrite Hrings. unfold run_outcome. cbn [fst snd].
  destruct (normalize_rings inner_rad pts_in pts_out) as [n_in n_out]. cbn [fst snd] in Hsink.
  rewrite Hsink. reflexivity.
Qed.

(** Conversely, an emitted feature went through every step. *)
Lemma processFeature_emitted (fuel : nat) (feature : QgsFeature)
    (context : QgsExpressionContext) (self self' : CreateDonutAlgorithm)
    (f' : QgsFeature) (more : list QgsFeature) :
  processFeature fuel feature context self = Return (f' :: more) self' ->
  exists pt c inner_rad outer_rad pts_in pts_out pts_in' pts_out',
    asPoint (geometry feature) = Some pt /\
    to_4326 self pt = Some c /\
    resolve_inner_radius self context = Some (Some inner_rad) /\
    resolve_outer_radius self context = Some (Some outer_rad) /\
    build_rings fuel (pt_spacing self) (QgsPointXY.y c) (QgsPointXY.x c) inner_rad outer_rad
      = Done (pts_in, pts_out) /\
    to_sink self inner_rad (fst (normalize_rings inner_rad pts_in pts_out))
                           (snd (normalize_rings inner_rad pts_in pts_out))
      = Some (pts_in', pts_out') /\
    f' = export_attributes self
           (setGeometry feature (donut_geometry self inner_rad pts_in' pts_out'))
           (QgsPointXY.x pt) (QgsPointXY.y pt) /\
    more = [] /\ self' = self.
Proof.
  unfold processFeature, try_except, try_block, make_donut, bind, call, get_self,
    incr_num_bad, ret, raise, run_outcome.
  destruct (asPoint (geometry feature)) as [pt | ] eqn:Hpt; [ | discriminate].
  destruct (to_4326 self pt) as [c | ] eqn:Hc; [ | discriminate].
  destruct (resolve_inner_radius self context) as [[inner_rad | ] | ] eqn:Hin;
    [ | discriminate | discriminate].
  destruct (resolve_outer_radius self context) as [[outer_rad | ] | ] eqn:Hout;
    [ | discriminate | discriminate].
  destruct (build_rings fuel (pt_spacing self) (QgsPointXY.y c) (QgsPointXY.x c)
              inner_rad outer_rad) as [[pts_in pts_out] | | ] eqn:Hrings;
    [ | discriminate | discriminate].
  cbn [fst snd].
  destruct (normalize_rings inner_rad pts_in pts_out) as [n_in n_out] eqn:Hnorm.
  destruct (to_sink self inner_rad n_in n_out) as [[pts_in' pts_out'] | ] eqn:Hsink;
    [ | discriminate].
  cbn [fst snd]. intros [= <- <- <-].
  exists pt, c, inner_rad, outer_rad, pts_in, pts_out, pts_in', pts_out'.
  rewrite Hnorm. cbn [fst snd]. repeat split; assumption.
Qed.

(** [processFeature] never lets an exception out, and touches no
    attribute of [self] but the counter. *)
Lemma processFeature_cases (fuel : nat) (feature : QgsFeature)
    (context : QgsExpressionContext) (self : CreateDonutAlgorithm) :
  processFeature fuel feature context self = OutOfFuel \/
  processFeature fuel feature context self = Return [] (counted_bad self) \/
  exists f', processFeature fuel feature context self = Return [f'] self.
Proof.
  unfold processFeature, try_except, try_block, make_donut, bind, call, get_self,
    incr_num_bad, ret, raise, run_outcome, counted_bad.
  destruct (asPoint (geometry feature)) as [pt | ]; [ | auto].
  destruct (to_4326 self pt) as [c | ]; [ | auto].
  destruct (resolve_inner_radius self context) as [[inner_rad | ] | ]; [ | auto | auto].
  destruct (resolve_outer_radius self context) as [[outer_rad | ] | ]; [ | auto | auto].
  destruct (build_rings fuel (pt_spacing self) (QgsPointXY.y c) (QgsPointXY.x c)
              inner_rad outer_rad) as [[pts_in pts_out] | | ]; [ | auto | auto].
  cbn [fst snd].
  destruct (normalize_rings inner_rad pts_in pts_out) as [n_in n_out].
  destruct (to_sink self inner_rad n_in n_out) as [[pts_in' pts_out'] | ]; [ | auto].
  right. right. eexists. reflexivity.
Qed.

End FeatureProperties.

(** ** The rings (lines 212-222) *)

Section RingProperties.

Context {E : Externals}.

Lemma build_rings_closed (fuel : nat) (spacing lat lon inner_rad outer_rad : float)
    (pts_in pts_out : Ring) :
  build_rings fuel spacing lat lon inner_rad outer_rad = Done (pts_in, pts_out) ->
  (exists p rest, pts_out = p :: rest ++ [p]) /\
  (if inner_rad =? 0 then pts_in = [] else exists q rest, pts_in = q :: rest ++ [q]).
Proof.
  intros H. pose proof (build_rings_done _ _ _ _ _ _ _ _ H) as (azs & Ha & _ & Hi).
  unfold build_rings in H.
  destruct (while_angle fuel spacing lat lon inner_rad outer_rad 0 [] [])
    as [[raw_in raw_out] | | ]; try discriminate.
  destruct (inner_rad =? 0); simpl in H.
  - destruct (append_first raw_out) as [closed | ] eqn:Hc; [ | discriminate].
    injection H as _ <-.
    destruct (append_first_some _ _ Hc) as (p & more & -> & ->).
    split; [ | assumption]. exists p, more. reflexivity.
  - destruct (append_first raw_in) as [closed_in | ] eqn:Hci; [ | discriminate].
    destruct (append_first raw_out) as [closed | ] eqn:Hc; [ | discriminate].
    injection H as <- <-.
    destruct (append_first_some _ _ Hc) as (p & more & -> & ->).
    destruct (append_first_some _ _ Hci) as (q & more_in & -> & ->).
    split; [exists p, more | exists q, more_in]; reflexivity.
Qed.

(** C1 (as the code behaves): with 13 drawing segments the configured
    step is the binary64 quotient 360.0 / 13; adding it up thirteen times
    gives 359.99999999999989, still below 360, so the loop runs a
    fourteenth time and every ring that is built has 15 points, not
    13 + 1.  The ring is closed all the same: its last point is its
    first. *)
Theorem C1_thirteen_segments_give_fifteen_points
    (self0 self : CreateDonutAlgorithm) (parameters : Parameters)
    (feedback feedback' : QgsProcessingFeedback) (fuel : nat)
    (lat lon inner_rad outer_rad : float) (pts_in pts_out : Ring) :
  PrmDrawingSegments parameters = 13%Z ->
  prepareAlgorithm self0 parameters feedback = Some (true, self, feedback') ->
  build_rings fuel (pt_spacing self) lat lon inner_rad outer_rad = Done (pts_in, pts_out) ->
  List.length pts_out = 15%nat /\
  exists p rest, pts_out = p :: rest ++ [p].
Proof.
  intros Hseg Hprep Hrings.
  assert (Hspacing : pt_spacing self = 360.0 / float_of_int 13).
  { unfold prepareAlgorithm in Hprep. rewrite Hseg in Hprep.
    destruct (PrmOuterRadius parameters <=? 0); [discriminate | ].
    cbn in Hprep. injection Hprep as <- _. reflexivity. }
  rewrite Hspacing in Hrings.
  split; [ | exact (proj1 (build_rings_closed _ _ _ _ _ _ _ _ Hrings))].
  destruct (build_rings_done _ _ _ _ _ _ _ _ Hrings) as (azs & Ha & Ht & _).
  assert (Hfixed : exists l, azimuths 15 (360.0 / float_of_int 13) 0 = Some l
                             /\ List.length l = 14%nat).
  { eexists. split; vm_compute; reflexivity. }
  destruct Hfixed as (l & Hl & Hlen).
  rewrite (azimuths_unique _ _ _ _ _ _ Ha Hl) in Ht.
  rewrite (traced_length _ _ _ _ _ Ht), length_app, Hlen. reflexivity.
Qed.

(** C10: when the inner radius is not 0, the two rings have the same
    number of points, the i-th point of each is the solver's answer for
    the same azimuth from the same centre, and each ring ends with a copy
    of its own first point. *)
Theorem C10_rings_share_azimuths
    (fuel : nat) (spacing lat lon inner_rad outer_rad : float) (pts_in pts_out : Ring) :
  (inner_rad =? 0) = false ->
  build_rings fuel spacing lat lon inner_rad outer_rad = Done (pts_in, pts_out) ->
  List.length pts_in = List.length pts_out /\
  (exists azs,
     traced lat lon inner_rad azs pts_in /\ traced lat lon outer_rad azs pts_out) /\
  (exists q rest, pts_in = q :: rest ++ [q]) /\
  (exists p rest, pts_out = p :: rest ++ [p]).
Proof.
  intros Hnz Hrings.
  destruct (build_rings_done _ _ _ _ _ _ _ _ Hrings) as (azs & _ & Hout & Hin).
  destruct (build_rings_closed _ _ _ _ _ _ _ _ Hrings) as (Hcout & Hcin).
  rewrite Hnz in Hin, Hcin.
  split; [ | split; [ | split]]; try assumption.
  - rewrite (traced_length _ _ _ _ _ Hin), (traced_length _ _ _ _ _ Hout). reflexivity.
  - exists (azs ++ [0]). split; assumption.
Qed.

End RingProperties.

(** ** The emitted shape (lines 223-251) *)

Section ShapeProperties.

Context {E : Externals}.

Lemma geometry_export_attributes (self : CreateDonutAlgorithm) (feature : QgsFeature)
    (g : QgsGeometry) (pt_x pt_y : float) :
  geometry (export_attributes self (setGeometry feature g) pt_x pt_y) = g.
Proof. unfold export_attributes. destruct (export_geom self); reflexivity. Qed.

Lemma donut_geometry_without_hole (self : CreateDonutAlgorithm) (inner_rad : float)
    (pts_in pts_out : Ring) :
  (inner_rad =? 0) = true ->
  donut_geometry self inner_rad pts_in pts_out = one_ring_geometry self pts_out.
Proof.
  intros H. unfold donut_geometry, one_ring_geometry. rewrite H. reflexivity.
Qed.

Lemma donut_geometry_with_hole (self : CreateDonutAlgorithm) (inner_rad : float)
    (pts_in pts_out : Ring) :
  (inner_rad =? 0) = false ->
  donut_geometry self inner_rad pts_in pts_out = two_ring_geometry self pts_in pts_out.
Proof.
  intros H. unfold donut_geometry, two_ring_geometry. rewrite H. reflexivity.
Qed.

(** C5: a feature that is emitted with a resolved inner radius equal to 0
    carries a geometry made of the outer ring alone, a polygon without
    hole for shape type 0 and a single line otherwise. *)
Theorem C5_zero_inner_radius_no_inner_ring
    (fuel : nat) (feature : QgsFeature) (context : QgsExpressionContext)
    (self self' : CreateDonutAlgorithm) (f' : QgsFeature) (inner_rad : float) :
  processFeature fuel feature context self = Return [f'] self' ->
  resolve_inner_radius self context = Some (Some inner_rad) ->
  (inner_rad =? 0) = true ->
  exists pts_out, geometry f' = one_ring_geometry self pts_out.
Proof.
  intros Hrun Hin Hzero.
  destruct (processFeature_emitted _ _ _ _ _ _ _ Hrun)
    as (pt & c & ri & ro & pts_in & pts_out & pts_in' & pts_out'
        & _ & _ & Hin' & _ & _ & _ & -> & _ & _).
  rewrite Hin in Hin'. injection Hin' as <-.
  exists pts_out'. rewrite geometry_export_attributes.
  apply donut_geometry_without_hole. assumption.
Qed.

(** C2 (amended): for a feature emitted with both rings, the outer ring
    alone decides the normalization.  When [hasIdlCrossing] holds of the
    outer ring, both rings go through [makeIdlCrossingsPositive(., True)];
    when it does not, neither ring is touched, whatever the inner ring
    does.  The rings so obtained, taken to the layer's reference system,
    are the ones of the emitted geometry. *)
Theorem C2_outer_ring_decides_normalization
    (fuel : nat) (feature : QgsFeature) (context : QgsExpressionContext)
    (self self' : CreateDonutAlgorithm) (f' : QgsFeature)
    (pt c : QgsPointXY.t) (inner_rad outer_rad : float) (pts_in pts_out : Ring) :
  asPoint (geometry feature) = Some pt ->
  to_4326 self pt = Some c ->
  resolve_inner_radius self context = Some (Some inner_rad) ->
  resolve_outer_radius self context = Some (Some outer_rad) ->
  (inner_rad =? 0) = false ->
  build_rings fuel (pt_spacing self) (QgsPointXY.y c) (QgsPointXY.x c) inner_rad outer_rad
    = Done (pts_in, pts_out) ->
  processFeature fuel feature context self = Return [f'] self' ->
  let side := fun ring : Ring =>
                if hasIdlCrossing pts_out then makeIdlCrossingsPositive ring true else ring in
  exists pts_in' pts_out',
    to_sink self inner_rad (side pts_in) (side pts_out) = Some (pts_in', pts_out') /\
    geometry f' = two_ring_geometry self pts_in' pts_out'.
Proof.
  intros Hpt Hc Hin Hout Hnz Hrings Hrun side.
  destruct (processFeature_emitted _ _ _ _ _ _ _ Hrun)
    as (pt0 & c0 & ri & ro & pin & pout & pts_in' & pts_out'
        & Hpt0 & Hc0 & Hin0 & Hout0 & Hrings0 & Hsink & -> & _ & _).
  rewrite Hpt in Hpt0. injection Hpt0 as <-.
  rewrite Hc in Hc0. injection Hc0 as <-.
  rewrite Hin in Hin0. injection Hin0 as <-.
  rewrite Hout in Hout0. injection Hout0 as <-.
  rewrite Hrings in Hrings0. injection Hrings0 as <- <-.
  exists pts_in', pts_out'. split.
  - unfold normalize_rings in Hsink. subst side. cbv beta.
    rewrite Hnz in Hsink. cbn [negb] in Hsink.
    destruct (hasIdlCrossing pts_out); exact Hsink.
  - rewrite geometry_export_attributes.
    apply donut_geometry_with_hole. assumption.
Qed.

(** C6: when the layer is in EPSG:4326 already, [prepareAlgorithm] sets up
    no transform in either direction; the centre given to the solver is
    the feature's own point and the emitted rings are the generated (and,
    on a crossing, normalized) points themselves. *)
Theorem C6_geographic_layer_skips_the_bridge
    (self0 self : CreateDonutAlgorithm) (parameters : Parameters)
    (feedback feedback' : QgsProcessingFeedback) :
  sourceCrs (INPUT parameters) = epsg4326 ->
  prepareAlgorithm self0 parameters feedback = Some (true, self, feedback') ->
  geom_to_4326 self = None /\ to_sink_crs self = None /\
  forall fuel feature context f' self',
    processFeature fuel feature context self = Return [f'] self' ->
    exists pt inner_rad outer_rad pts_in pts_out,
      asPoint (geometry feature) = Some pt /\
      build_rings fuel (pt_spacing self) (QgsPointXY.y pt) (QgsPointXY.x pt)
        inner_rad outer_rad = Done (pts_in, pts_out) /\
      geometry f' =
        donut_geometry self inner_rad
          (fst (normalize_rings inner_rad pts_in pts_out))
          (snd (normalize_rings inner_rad pts_in pts_out)).
Proof.
  intros Hcrs Hprep.
  assert (Hnone : geom_to_4326 self = None /\ to_sink_crs self = None).
  { unfold prepareAlgorithm in Hprep. rewrite Hcrs in Hprep.
    destruct (PrmOuterRadius parameters <=? 0); [discriminate | ].
    destruct (PrmDrawingSegments parameters =? 0)%Z; [discriminate | ].
    injection Hprep as <- _. split; reflexivity. }
  destruct Hnone as [H4326 Hsinkcrs].
  split; [assumption | split; [assumption | ]].
  intros fuel feature context f' self' Hrun.
  destruct (processFeature_emitted _ _ _ _ _ _ _ Hrun)
    as (pt & c & ri & ro & pin & pout & pts_in' & pts_out'
        & Hpt & Hc & _ & _ & Hrings & Hsink & -> & _ & _).
  unfold to_4326 in Hc. rewrite H4326 in Hc. injection Hc as <-.
  unfold to_sink in Hsink. rewrite Hsinkcrs in Hsink. injection Hsink as <- <-.
  exists pt, ri, ro, pin, pout.
  rewrite geometry_export_attributes. repeat split; assumption.
Qed.

(** C9: a data-defined inner radius that evaluates to a negative value is
    not rejected.  The radius resolves to the (negative) converted value,
    and a feature for which the remaining steps succeed is emitted with
    two rings, the inner one traced by the solver with that negative
    distance.  The inner radius skips the feature only through a failed
    evaluation. *)
Theorem C9_negative_inner_radius_is_traced
    (fuel : nat) (feature : QgsFeature) (context : QgsExpressionContext)
    (self : CreateDonutAlgorithm) (property : QgsProperty) (value : float)
    (pt c : QgsPointXY.t) (outer_rad : float) (pts_in pts_out pts_in' pts_out' : Ring) :
  let inner_rad := value * measure_factor self in
  inner_radius_dyn self = true ->
  inner_radius_property self = Some property ->
  valueAsDouble property context (inner_radius self) = (value, true) ->
  (inner_rad <? 0) = true ->
  asPoint (geometry feature) = Some pt ->
  to_4326 self pt = Some c ->
  resolve_outer_radius self context = Some (Some outer_rad) ->
  build_rings fuel (pt_spacing self) (QgsPointXY.y c) (QgsPointXY.x c) inner_rad outer_rad
    = Done (pts_in, pts_out) ->
  to_sink self inner_rad (fst (normalize_rings inner_rad pts_in pts_out))
                         (snd (normalize_rings inner_rad pts_in pts_out))
    = Some (pts_in', pts_out') ->
  resolve_inner_radius self context = Some (Some inner_rad) /\
  processFeature fuel feature context self
    = Return [export_attributes self
                (setGeometry feature (two_ring_geometry self pts_in' pts_out'))
                (QgsPointXY.x pt) (QgsPointXY.y pt)] self /\
  (exists azs, traced (QgsPointXY.y c) (QgsPointXY.x c) inner_rad azs pts_in) /\
  (forall context' value' ok,
     valueAsDouble property context' (inner_radius self) = (value', ok) ->
     (resolve_inner_radius self context' = Some None <-> ok = false)).
Proof.
  intros inner_rad Hdyn Hprop Hval Hneg Hpt Hc Hout Hrings Hsink.
  pose proof (ltb_true_eqb_false _ _ Hneg) as Hnz.
  assert (Hin : resolve_inner_radius self context = Some (Some inner_rad)).
  { unfold resolve_inner_radius. rewrite Hdyn, Hprop, Hval. reflexivity. }
  split; [assumption | split; [ | split]].
  - rewrite <- (donut_geometry_with_hole self inner_rad) by assumption.
    apply (processFeature_success fuel feature context self pt c inner_rad outer_rad
             pts_in pts_out); assumption.
  - destruct (build_rings_done _ _ _ _ _ _ _ _ Hrings) as (azs & _ & _ & Hi).
    rewrite Hnz in Hi. exists (azs ++ [0]). assumption.
  - intros context' value' ok Hval'. unfold resolve_inner_radius.
    rewrite Hdyn, Hprop, Hval'. destruct ok; cbn; split; congruence.
Qed.

End ShapeProperties.

(** ** Errors and the bad-feature counter *)

Section RunProperties.

Context {E : Externals}.

(** An exception leaves the [try] block with [self] as it was on entry:
    the counter is only touched right before a [return]. *)
Lemma try_block_except_state (fuel : nat) (feature : QgsFeature)
    (context : QgsExpressionContext) (self self_then : CreateDonutAlgorithm) :
  try_block fuel feature context self = Except self_then -> self_then = self.
Proof.
  unfold try_block, make_donut, bind, call, get_self, incr_num_bad, ret, raise, run_outcome.
  destruct (asPoint (geometry feature)) as [pt | ]; [ | congruence].
  destruct (to_4326 self pt) as [c | ]; [ | congruence].
  destruct (resolve_inner_radius self context) as [[inner_rad | ] | ]; try congruence.
  destruct (resolve_outer_radius self context) as [[outer_rad | ] | ]; try congruence.
  destruct (build_rings fuel (pt_spacing self) (QgsPointXY.y c) (QgsPointXY.x c)
              inner_rad outer_rad) as [[pts_in pts_out] | | ]; try congruence.
  cbn [fst snd].
  destruct (normalize_rings inner_rad pts_in pts_out) as [n_in n_out].
  destruct (to_sink self inner_rad n_in n_out) as [[pts_in' pts_out'] | ]; congruence.
Qed.

Lemma processFeature_handles (fuel : nat) (feature : QgsFeature)
    (context : QgsExpressionContext) (self self_then : CreateDonutAlgorithm) :
  try_block fuel feature context self = Except self_then ->
  processFeature fuel feature context self = Return [] (counted_bad self).
Proof.
  intros H. pose proof (try_block_except_state _ _ _ _ _ H) as ->.
  unfold processFeature, try_except. rewrite H. reflexivity.
Qed.

Lemma processFeature_inner_skip (fuel : nat) (feature : QgsFeature)
    (context : QgsExpressionContext) (self : CreateDonutAlgorithm) :
  resolve_inner_radius self context = Some None ->
  processFeature fuel feature context self = Return [] (counted_bad self).
Proof.
  intros H.
  unfold processFeature, try_except, try_block, bind, call, get_self, incr_num_bad,
    ret, raise.
  destruct (asPoint (geometry feature)) as [pt | ]; [ | reflexivity].
  destruct (to_4326 self pt) as [c | ]; [ | reflexivity].
  rewrite H. reflexivity.
Qed.

Lemma processFeature_outer_skip (fuel : nat) (feature : QgsFeature)
    (context : QgsExpressionContext) (self : CreateDonutAlgorithm) :
  resolve_outer_radius self context = Some None ->
  processFeature fuel feature context self = Return [] (counted_bad self).
Proof.
  intros H.
  unfold processFeature, try_except, try_block, bind, call, get_self, incr_num_bad,
    ret, raise.
  destruct (asPoint (geometry feature)) as [pt | ]; [ | reflexivity].
  destruct (to_4326 self pt) as [c | ]; [ | reflexivity].
  destruct (resolve_inner_radius self context) as [[inner_rad | ] | ]; try reflexivity.
  rewrite H. reflexivity.
Qed.

Lemma processFeatures_skip (fuel : nat) (feature : QgsFeature) (rest : list QgsFeature)
    (self : CreateDonutAlgorithm) :
  processFeature fuel feature feature self = Return [] (counted_bad self) ->
  processFeatures fuel (feature :: rest) self = processFeatures fuel rest (counted_bad self).
Proof.
  intros H. cbn [processFeatures]. unfold bind at 1. rewrite H.
  unfold bind, ret. destruct (processFeatures fuel rest (counted_bad self)); reflexivity.
Qed.

(** C3: each per-feature error makes [processFeature] hand back no
    feature and count one more bad feature, the other attributes of
    [self] unchanged; the run goes on with the remaining features from
    that state, and its sink receives nothing for the failed one. *)
Theorem C3_feature_error_skips_and_counts
    (fuel : nat) (self : CreateDonutAlgorithm) (feature : QgsFeature)
    (context : QgsExpressionContext) :
  per_feature_error fuel self feature context ->
  processFeature fuel feature context self = Return [] (counted_bad self) /\
  (context = feature ->
   forall rest,
     processFeatures fuel (feature :: rest) self
       = processFeatures fuel rest (counted_bad self)).
Proof.
  intros Herr.
  assert (Hskip : processFeature fuel feature context self = Return [] (counted_bad self)).
  { destruct Herr as [property value Hdyn Hprop Hval
                     | property value Hdyn Hprop Hval
                     | property value ok Hdyn Hprop Hval Hle
                     | self_then Hexc].
    - apply processFeature_inner_skip.
      unfold resolve_inner_radius. rewrite Hdyn, Hprop, Hval. reflexivity.
    - apply processFeature_outer_skip.
      unfold resolve_outer_radius. rewrite Hdyn, Hprop, Hval. reflexivity.
    - apply processFeature_outer_skip.
      unfold resolve_outer_radius. rewrite Hdyn, Hprop, Hval, Hle, orb_true_r. reflexivity.
    - exact (processFeature_handles _ _ _ _ _ Hexc). }
  split; [assumption | ].
  intros -> rest. apply processFeatures_skip. assumption.
Qed.

(** C4: a configured outer radius that is not positive makes
    [prepareAlgorithm] report the error and return [False]; the run is
    aborted with that report alone, whatever the features of the source,
    and none of them is processed (no iteration bound is consumed). *)
Theorem C4_nonpositive_outer_radius_aborts (parameters : Parameters) :
  (PrmOuterRadius parameters <=? 0) = true ->
  (forall self feedback,
     exists self',
       prepareAlgorithm self parameters feedback
         = Some (false, self',
                 feedback ++ [reportError "Outer radius parameter must be greater than 0"]))
  /\
  (forall fuel,
     processAlgorithm fuel parameters
       = Aborted [reportError "Outer radius parameter must be greater than 0"]).
Proof.
  intros Hle. split.
  - intros self feedback. unfold prepareAlgorithm. rewrite Hle. eexists. reflexivity.
  - intros fuel. unfold processAlgorithm, prepareAlgorithm. rewrite Hle. reflexivity.
Qed.

(** The counter is the only attribute a run changes, and it counts the
    features that produced no output. *)
Lemma processFeatures_returns (fuel : nat) (features : list QgsFeature) :
  forall self sink self',
  processFeatures fuel features self = Return sink self' ->
  self' = set_num_bad self
            (num_bad self + (Z.of_nat (List.length features) - Z.of_nat (List.length sink)))%Z.
Proof.
  induction features as [ | feature rest IH]; intros self sink self' H.
  - cbn in H. injection H as <- <-. destruct self. unfold set_num_bad. cbn.
    f_equal. lia.
  - cbn [processFeatures] in H. unfold bind at 1 in H.
    destruct (processFeature_cases fuel feature feature self) as [Hf | [Hf | [f' Hf]]];
      rewrite Hf in H.
    + discriminate.
    + unfold bind, ret in H.
      destruct (processFeatures fuel rest (counted_bad self)) as [more s | s | ] eqn:Hrest;
        try discriminate.
      injection H as <- <-. rewrite (IH _ _ _ Hrest).
      unfold counted_bad, set_num_bad. cbn [num_bad shape_type export_geom outer_radius
        outer_radius_dyn outer_radius_property inner_radius inner_radius_dyn
        inner_radius_property measure_factor inner_radius_converted outer_radius_converted
        pt_spacing total_features geom_to_4326 to_sink_crs].
      f_equal. cbn [app List.length]. lia.
    + unfold bind, ret in H.
      destruct (processFeatures fuel rest self) as [more s | s | ] eqn:Hrest;
        try discriminate.
      injection H as <- <-. rewrite (IH _ _ _ Hrest).
      f_equal. cbn [app List.length]. lia.
Qed.

(** C8 (amended): a completed run reports the summary only when at least
    one feature was skipped.  The counter is then the number of source
    features that produced no output, the total is the source's feature
    count, and the message is the last (and only) entry of the log; with
    no skipped feature the log stays empty. *)
Theorem C8_summary_only_when_a_feature_was_skipped
    (fuel : nat) (parameters : Parameters) (sink : list QgsFeature)
    (self : CreateDonutAlgorithm) (feedback : QgsProcessingFeedback) :
  processAlgorithm fuel parameters = Completed sink self feedback ->
  total_features self = featureCount (INPUT parameters) /\
  num_bad self = (Z.of_nat (List.length (getFeatures (INPUT parameters)))
                  - Z.of_nat (List.length sink))%Z /\
  feedback = (if (num_bad self =? 0)%Z then [] else [summary self]).
Proof.
  unfold processAlgorithm. intros H.
  destruct (prepareAlgorithm initParameters parameters [])
    as [[[ok self1] feedback1] | ] eqn:Hprep; [ | discriminate].
  destruct ok; [ | discriminate].
  destruct (processFeatures fuel (getFeatures (INPUT parameters)) self1)
    as [out s | s | ] eqn:Hrun; try discriminate.
  injection H as <- <- <-.
  pose proof (processFeatures_returns _ _ _ _ _ Hrun) as ->.
  unfold prepareAlgorithm in Hprep.
  destruct (PrmOuterRadius parameters <=? 0); [discriminate | ].
  destruct (PrmDrawingSegments parameters =? 0)%Z; [discriminate | ].
  injection Hprep as <- <-.
  cbn [set_num_bad total_features num_bad]. split; [reflexivity | split].
  - lia.
  - unfold postProcessAlgorithm, summary. cbn [set_num_bad total_features num_bad].
    destruct (0 + (Z.of_nat (List.length (getFeatures (INPUT parameters)))
                   - Z.of_nat (List.length out)) =? 0)%Z; reflexivity.
Qed.

End RunProperties.

(** ** Determinism *)

Section Determinism.

Context {E : Externals}.

(** A loop that finished within its bound finishes the same way within
    any larger one. *)
Lemma while_angle_more_fuel (fuel : nat) (spacing lat lon inner_rad outer_rad : float) :
  forall angle pts_in pts_out r,
  while_angle fuel spacing lat lon inner_rad outer_rad angle pts_in pts_out = r ->
  r <> Timeout ->
  forall extra,
    while_angle (fuel + extra) spacing lat lon inner_rad outer_rad angle pts_in pts_out = r.
Proof.
  induction fuel as [ | fuel IH]; intros angle pts_in pts_out r H Hr extra.
  - cbn in H. congruence.
  - cbn [Nat.add while_angle] in *. destruct (angle <? 360); [ | assumption].
    destruct (if negb (inner_rad =? 0)
              then option_map (fun p => pts_in ++ [p]) (direct_point lat lon angle inner_rad)
              else Some pts_in) as [pts_in' | ]; [ | assumption].
    destruct (direct_point lat lon angle outer_rad) as [p | ]; [ | assumption].
    apply IH; assumption.
Qed.

Lemma build_rings_more_fuel (fuel : nat) (spacing lat lon inner_rad outer_rad : float)
    (r : outcome (Ring * Ring)) :
  build_rings fuel spacing lat lon inner_rad outer_rad = r ->
  r <> Timeout ->
  forall extra, build_rings (fuel + extra) spacing lat lon inner_rad outer_rad = r.
Proof.
  unfold build_rings. intros H Hr extra.
  destruct (while_angle fuel spacing lat lon inner_rad outer_rad 0 [] []) as [rings | | ] eqn:Hloop.
  - rewrite (while_angle_more_fuel _ _ _ _ _ _ _ _ _ _ Hloop) by discriminate. assumption.
  - rewrite (while_angle_more_fuel _ _ _ _ _ _ _ _ _ _ Hloop) by discriminate. assumption.
  - congruence.
Qed.

Lemma processFeature_more_fuel (fuel : nat) (feature : QgsFeature)
    (context : QgsExpressionContext) (self : CreateDonutAlgorithm)
    (out : list QgsFeature) (self' : CreateDonutAlgorithm) :
  processFeature fuel feature context self = Return out self' ->
  forall extra, processFeature (fuel + extra) feature context self = Return out self'.
Proof.
  unfold processFeature, try_except, try_block, make_donut, bind, call, get_self,
    incr_num_bad, ret, raise, run_outcome.
  intros H extra.
  destruct (asPoint (geometry feature)) as [pt | ]; [ | assumption].
  destruct (to_4326 self pt) as [c | ]; [ | assumption].
  destruct (resolve_inner_radius self context) as [[inner_rad | ] | ]; try assumption.
  destruct (resolve_outer_radius self context) as [[outer_rad | ] | ]; try assumption.
  destruct (build_rings fuel (pt_spacing self) (QgsPointXY.y c) (QgsPointXY.x c)
              inner_rad outer_rad) as [rings | | ] eqn:Hrings.
  - rewrite (build_rings_more_fuel _ _ _ _ _ _ _ Hrings) by discriminate. assumption.
  - rewrite (build_rings_more_fuel _ _ _ _ _ _ _ Hrings) by discriminate. assumption.
  - discriminate.
Qed.

(** Every attribute but the counter is read through [set_num_bad]. *)
Ltac same_configuration self n :=
  cbv beta iota;
  change (to_4326 (set_num_bad self n)) with (to_4326 self);
  change (resolve_inner_radius (set_num_bad self n)) with (resolve_inner_radius self);
  change (resolve_outer_radius (set_num_bad self n)) with (resolve_outer_radius self);
  change (pt_spacing (set_num_bad self n)) with (pt_spacing self);
  change (to_sink (set_num_bad self n)) with (to_sink self);
  change (donut_geometry (set_num_bad self n)) with (donut_geometry self);
  change (export_attributes (set_num_bad self n)) with (export_attributes self).

(** The features handed back do not depend on the counter. *)
Lemma emitted_processFeature_set_num_bad (fuel : nat) (feature : QgsFeature)
    (context : QgsExpressionContext) (self : CreateDonutAlgorithm) (n : Z) :
  emitted (processFeature fuel feature context (set_num_bad self n))
  = emitted (processFeature fuel feature context self).
Proof.
  unfold processFeature, try_except, try_block, make_donut, bind, call, get_self,
    incr_num_bad, ret, raise, run_outcome, emitted.
  destruct (asPoint (geometry feature)) as [pt | ]; [ | reflexivity].
  same_configuration self n.
  destruct (to_4326 self pt) as [c | ]; [ | reflexivity].
  same_configuration self n.
  destruct (resolve_inner_radius self context) as [[inner_rad | ] | ]; try reflexivity.
  same_configuration self n.
  destruct (resolve_outer_radius self context) as [[outer_rad | ] | ]; try reflexivity.
  same_configuration self n.
  destruct (build_rings fuel (pt_spacing self) (QgsPointXY.y c) (QgsPointXY.x c)
              inner_rad outer_rad) as [[pts_in pts_out] | | ]; try reflexivity.
  cbn [fst snd].
  destruct (normalize_rings inner_rad pts_in pts_out) as [n_in n_out].
  same_configuration self n.
  destruct (to_sink self inner_rad n_in n_out) as [[pts_in' pts_out'] | ]; reflexivity.
Qed.

(** C7: with the collaborators being functions, what [processFeature]
    emits for a feature is a function of the feature, its context and the
    configuration.  It does not depend on the bad-feature counter, the
    only attribute that changes between features, nor on the iteration
    bound once the loop finishes within it; and a radius that is not
    data-defined resolves, for every feature, to the value converted once
    by [prepareAlgorithm]. *)
Theorem C7_output_is_a_function_of_feature_and_configuration
    (feature : QgsFeature) (context : QgsExpressionContext) (self : CreateDonutAlgorithm) :
  (forall fuel n1 n2,
     emitted (processFeature fuel feature context (set_num_bad self n1))
     = emitted (processFeature fuel feature context (set_num_bad self n2))) /\
  (forall fuel1 fuel2 out1 out2 self1 self2,
     processFeature fuel1 feature context self = Return out1 self1 ->
     processFeature fuel2 feature context self = Return out2 self2 ->
     out1 = out2 /\ self1 = self2) /\
  (inner_radius_dyn self = false ->
   forall context',
     resolve_inner_radius self context' = Some (Some (inner_radius_converted self))) /\
  (outer_radius_dyn self = false ->
   forall context',
     resolve_outer_radius self context' = Some (Some (outer_radius_converted self))) /\
  (forall self0 parameters feedback feedback',
     prepareAlgorithm self0 parameters feedback = Some (true, self, feedback') ->
     inner_radius_converted self
       = PrmInnerRadius parameters * conversionToMeters (PrmUnitsOfMeasure parameters) /\
     outer_radius_converted self
       = PrmOuterRadius parameters * conversionToMeters (PrmUnitsOfMeasure parameters)).
Proof.
  split; [ | split; [ | split; [ | split]]].
  - intros fuel n1 n2. rewrite !emitted_processFeature_set_num_bad. reflexivity.
  - intros fuel1 fuel2 out1 out2 self1 self2 H1 H2.
    pose proof (processFeature_more_fuel _ _ _ _ _ _ H1 fuel2) as K1.
    pose proof (processFeature_more_fuel _ _ _ _ _ _ H2 fuel1) as K2.
    rewrite Nat.add_comm in K2. rewrite K1 in K2. injection K2 as -> ->.
    split; reflexivity.
  - intros Hdyn context'. unfold resolve_inner_radius. rewrite Hdyn. reflexivity.
  - intros Hdyn context'. unfold resolve_outer_radius. rewrite Hdyn. reflexivity.
  - intros self0 parameters feedback feedback' Hprep. unfold prepareAlgorithm in Hprep.
    destruct (PrmOuterRadius parameters <=? 0); [discriminate | ].
    destruct (PrmDrawingSegments parameters =? 0)%Z; [discriminate | ].
    injection Hprep as <- _. split; reflexivity.
Qed.

End Determinism.

(** ** Termination of the azimuth loop *)

Section Termination.

Context {E : Externals}.

(** Up to 1000 drawing segments, checked count by count on the binary64
    sums: the loop stops after [n] or [n + 1] iterations. *)
Lemma azimuths_finish_in_range (n : Z) :
  (4 <= n <= 1000)%Z ->
  exists azs,
    azimuths (Z.to_nat n + 2) (360.0 / float_of_int n) 0 = Some azs /\
    (List.length azs = Z.to_nat n \/ List.length azs = S (Z.to_nat n)).
Proof.
  intros Hn.
  assert (Hall : forallb loop_finishes (seq 4 997) = true) by (vm_compute; reflexivity).
  rewrite forallb_forall in Hall.
  assert (Hin : In (Z.to_nat n) (seq 4 997)) by (apply in_seq; lia).
  specialize (Hall _ Hin). unfold loop_finishes in Hall.
  rewrite Z2Nat.id in Hall by lia.
  destruct (azimuths (Z.to_nat n + 2) (360.0 / float_of_int n) 0) as [azs | ];
    [ | discriminate].
  exists azs. split; [reflexivity | ].
  apply orb_true_iff in Hall. destruct Hall as [H | H]; apply Nat.eqb_eq in H; auto.
Qed.

(** The loop of [processFeature] stops where its control skeleton does. *)
Lemma while_angle_no_timeout (fuel : nat) (spacing lat lon inner_rad outer_rad : float) :
  forall angle azs pts_in pts_out,
  azimuths fuel spacing angle = Some azs ->
  while_angle fuel spacing lat lon inner_rad outer_rad angle pts_in pts_out <> Timeout.
Proof.
  induction fuel as [ | fuel IH]; intros angle azs pts_in pts_out H; cbn in *.
  - discriminate.
  - destruct (angle <? 360); [ | discriminate].
    destruct (azimuths fuel spacing (angle + spacing)) as [rest | ] eqn:Hrest;
      [ | discriminate].
    destruct (if negb (inner_rad =? 0)
              then option_map (fun p => pts_in ++ [p]) (direct_point lat lon angle inner_rad)
              else Some pts_in) as [pts_in' | ]; [ | discriminate].
    destruct (direct_point lat lon angle outer_rad) as [p | ]; [ | discriminate].
    exact (IH _ _ _ _ Hrest).
Qed.

Lemma build_rings_no_timeout (fuel : nat) (spacing lat lon inner_rad outer_rad : float)
    (azs : list float) :
  azimuths fuel spacing 0 = Some azs ->
  build_rings fuel spacing lat lon inner_rad outer_rad <> Timeout.
Proof.
  intros Ha. unfold build_rings.
  pose proof (while_angle_no_timeout fuel spacing lat lon inner_rad outer_rad 0 azs [] [] Ha)
    as Hloop.
  destruct (while_angle fuel spacing lat lon inner_rad outer_rad 0 [] [])
    as [[pts_in pts_out] | | ]; [ | discriminate | congruence].
  destruct (if negb (inner_rad =? 0) then append_first pts_in else Some pts_in);
    [ | discriminate].
  destruct (append_first pts_out); discriminate.
Qed.

(** With a solver that answers, the rings are built. *)
Lemma while_angle_total (fuel : nat) (spacing lat lon inner_rad outer_rad : float) :
  (forall angle rad, direct_point lat lon angle rad <> None) ->
  forall angle azs pts_in pts_out,
  azimuths fuel spacing angle = Some azs ->
  exists pts_in' pts_out',
    while_angle fuel spacing lat lon inner_rad outer_rad angle pts_in pts_out
      = Done (pts_in', pts_out').
Proof.
  intros Hsolver.
  induction fuel as [ | fuel IH]; intros angle azs pts_in pts_out H; cbn in *.
  - discriminate.
  - destruct (angle <? 360); [ | eexists; eexists; reflexivity].
    destruct (azimuths fuel spacing (angle + spacing)) as [rest | ] eqn:Hrest;
      [ | discriminate].
    pose proof (Hsolver angle inner_rad) as Hi. pose proof (Hsolver angle outer_rad) as Ho.
    destruct (direct_point lat lon angle inner_rad) as [q | ]; [ | congruence].
    destruct (direct_point lat lon angle outer_rad) as [p | ]; [ | congruence].
    destruct (negb (inner_rad =? 0)); cbn; exact (IH _ _ _ _ Hrest).
Qed.

Lemma build_rings_total (fuel : nat) (spacing lat lon inner_rad outer_rad : float)
    (azs : list float) :
  (forall angle rad, direct_point lat lon angle rad <> None) ->
  azimuths fuel spacing 0 = Some azs ->
  exists pts_in pts_out,
    build_rings fuel spacing lat lon inner_rad outer_rad = Done (pts_in, pts_out).
Proof.
  intros Hsolver Ha.
  destruct (while_angle_total fuel spacing lat lon inner_rad outer_rad Hsolver 0 azs [] [] Ha)
    as (raw_in & raw_out & Hloop).
  destruct (while_angle_done _ _ _ _ _ _ _ _ _ _ _ Hloop)
    as (azs' & new_in & new_out & Ha' & Hin & Hout & Ht & Hi).
  cbn in Hin, Hout. subst raw_in raw_out.
  destruct (azimuths_from_zero _ _ _ Ha') as [rest ->].
  unfold build_rings. rewrite Hloop.
  inversion Ht as [ | a p azs0 pts0 Hp Hrest]; subst.
  destruct (inner_rad =? 0); cbn.
  - eexists. eexists. reflexivity.
  - inversion Hi; subst. cbn. eexists. eexists. reflexivity.
Qed.

(** In that range [processFeature] returns, whatever the collaborators
    do: with features or with none, never with an exception, and within
    [segments + 2] iterations. *)
Lemma processFeature_returns_in_range
    (self0 self : CreateDonutAlgorithm) (parameters : Parameters)
    (feedback feedback' : QgsProcessingFeedback)
    (feature : QgsFeature) (context : QgsExpressionContext) :
  prepareAlgorithm self0 parameters feedback = Some (true, self, feedback') ->
  (4 <= PrmDrawingSegments parameters <= 1000)%Z ->
  processFeature (Z.to_nat (PrmDrawingSegments parameters) + 2) feature context self
    = Return [] (counted_bad self) \/
  exists f',
    processFeature (Z.to_nat (PrmDrawingSegments parameters) + 2) feature context self
      = Return [f'] self.
Proof.
  intros Hprep Hrange.
  assert (Hspacing : pt_spacing self = 360.0 / float_of_int (PrmDrawingSegments parameters)).
  { unfold prepareAlgorithm in Hprep.
    destruct (PrmOuterRadius parameters <=? 0); [discriminate | ].
    destruct (PrmDrawingSegments parameters =? 0)%Z; [discriminate | ].
    injection Hprep as <- _. reflexivity. }
  destruct (azimuths_finish_in_range _ Hrange) as (azs & Ha & _).
  rewrite <- Hspacing in Ha.
  set (fuel := (Z.to_nat (PrmDrawingSegments parameters) + 2)%nat) in *.
  destruct (processFeature_cases fuel feature context self) as [Hf | [Hf | Hf]];
    [ | left; assumption | right; assumption].
  exfalso. revert Hf.
  unfold processFeature, try_except, try_block, make_donut, bind, call, get_self,
    incr_num_bad, ret, raise, run_outcome.
  destruct (asPoint (geometry feature)) as [pt | ]; [ | discriminate].
  destruct (to_4326 self pt) as [c | ]; [ | discriminate].
  destruct (resolve_inner_radius self context) as [[inner_rad | ] | ]; try discriminate.
  destruct (resolve_outer_radius self context) as [[outer_rad | ] | ]; try discriminate.
  pose proof (build_rings_no_timeout fuel (pt_spacing self) (QgsPointXY.y c) (QgsPointXY.x c)
                inner_rad outer_rad azs Ha) as Hrings.
  destruct (build_rings fuel (pt_spacing self) (QgsPointXY.y c) (QgsPointXY.x c)
              inner_rad outer_rad) as [[pts_in pts_out] | | ]; [ | discriminate | congruence].
  cbn [fst snd].
  destruct (normalize_rings inner_rad pts_in pts_out) as [n_in n_out].
  destruct (to_sink self inner_rad n_in n_out) as [[pts_in' pts_out'] | ]; discriminate.
Qed.

End Termination.

(** * Further properties of the code *)

Lemma leb_not_ltb_eqb (a b : float) :
  (a <=? b) = true -> (a <? b) = false -> (a =? b) = true.
Proof.
  rewrite FloatAxioms.leb_spec, FloatAxioms.ltb_spec, FloatAxioms.eqb_spec.
  unfold SFleb, SFltb, SFeqb.
  destruct (SFcompare (Prim2SF a) (Prim2SF b)) as [[ | | ] | ]; congruence.
Qed.

Lemma eqb_true_leb_true (a b : float) : (a =? b) = true -> (a <=? b) = true.
Proof.
  rewrite FloatAxioms.leb_spec, FloatAxioms.eqb_spec. unfold SFleb, SFeqb.
  destruct (SFcompare (Prim2SF a) (Prim2SF b)) as [[ | | ] | ]; congruence.
Qed.

Section Attributes.

Context {E : Externals}.

Variable getGeomNames : list string -> string * string.

(** X1: an emitted feature keeps the attributes of the input feature, in
    order; with [export_geom] it gets exactly two more, the x and y of the
    input point as the layer gave them (before any transform to
    EPSG:4326), and without it none. *)
Theorem X1_exported_coordinates_are_the_layer_s_own
    (fuel : nat) (feature : QgsFeature) (context : QgsExpressionContext)
    (self self' : CreateDonutAlgorithm) (f' : QgsFeature) :
  processFeature fuel feature context self = Return [f'] self' ->
  exists pt,
    geometry feature = fromPointXY pt /\
    attributes f' =
      (if export_geom self
       then attributes feature ++ [QDouble (QgsPointXY.x pt); QDouble (QgsPointXY.y pt)]
       else attributes feature).
Proof.
  intros Hrun.
  destruct (processFeature_emitted _ _ _ _ _ _ _ Hrun)
    as (pt & c & ri & ro & pin & pout & pin' & pout' & Hpt & _ & _ & _ & _ & _ & -> & _ & _).
  exists pt. split.
  - destruct (geometry feature); try discriminate. cbn in Hpt. congruence.
  - unfold export_attributes. destruct (export_geom self); reflexivity.
Qed.


(** X3: the declared output type against the emitted geometry.  For shape
    type 0 both are [Polygon]; for any other shape type [outputWkbType]
    declares [LineString] while the geometry, built by
    [fromMultiPolylineXY], is a [MultiLineString]. *)
Theorem X3_declared_type_and_emitted_geometry
    (fuel : nat) (feature : QgsFeature) (context : QgsExpressionContext)
    (self self' : CreateDonutAlgorithm) (f' : QgsFeature) (input_wkb_type : QgsWkbTypes.t) :
  processFeature fuel feature context self = Return [f'] self' ->
  (shape_type self = 0%Z ->
   outputWkbType self input_wkb_type = QgsWkbTypes.Polygon /\
   wkbType (geometry f') = QgsWkbTypes.Polygon) /\
  (shape_type self <> 0%Z ->
   outputWkbType self input_wkb_type = QgsWkbTypes.LineString /\
   wkbType (geometry f') = QgsWkbTypes.MultiLineString).
Proof.
  intros Hrun.
  destruct (processFeature_emitted _ _ _ _ _ _ _ Hrun)
    as (pt & c & ri & ro & pin & pout & pin' & pout' & _ & _ & _ & _ & _ & _ & -> & _ & _).
  rewrite geometry_export_attributes. unfold outputWkbType, donut_geometry.
  split; intros Hshape.
  - rewrite Hshape. cbn. destruct (ri =? 0); split; reflexivity.
  - apply Z.eqb_neq in Hshape. rewrite Hshape. destruct (ri =? 0); split; reflexivity.
Qed.

End Attributes.

Section Rings.

Context {E : Externals}.

Lemma traced_functional lat lon rad azs pts1 pts2 :
  traced lat lon rad azs pts1 -> traced lat lon rad azs pts2 -> pts1 = pts2.
Proof.
  unfold traced. intros H1. revert pts2.
  induction H1 as [ | a p azs pts Hp _ IH]; intros pts2 H2; inversion H2; subst.
  - reflexivity.
  - f_equal; [congruence | apply IH; assumption].
Qed.


(** X4: a ring depends on the centre, the step and its own radius only.
    The outer ring is the same whatever the inner radius, and the inner
    ring for a radius is the outer ring the code builds for that radius. *)
Theorem X4_ring_depends_on_its_own_radius
    (fuel1 fuel2 : nat) (spacing lat lon rad other1 other2 : float)
    (pts_in1 pts_out1 pts_in2 pts_out2 : Ring) :
  build_rings fuel1 spacing lat lon other1 rad = Done (pts_in1, pts_out1) ->
  (build_rings fuel2 spacing lat lon other2 rad = Done (pts_in2, pts_out2) ->
   pts_out2 = pts_out1) /\
  (build_rings fuel2 spacing lat lon rad other2 = Done (pts_in2, pts_out2) ->
   (rad =? 0) = false ->
   pts_in2 = pts_out1).
Proof.
  intros H1.
  destruct (build_rings_done _ _ _ _ _ _ _ _ H1) as (azs1 & Ha1 & Hout1 & _).
  split; intros H2.
  - destruct (build_rings_done _ _ _ _ _ _ _ _ H2) as (azs2 & Ha2 & Hout2 & _).
    rewrite (azimuths_unique _ _ _ _ _ _ Ha2 Ha1) in Hout2.
    exact (traced_functional _ _ _ _ _ _ Hout2 Hout1).
  - intros Hnz.
    destruct (build_rings_done _ _ _ _ _ _ _ _ H2) as (azs2 & Ha2 & _ & Hin2).
    rewrite Hnz in Hin2.
    rewrite (azimuths_unique _ _ _ _ _ _ Ha2 Ha1) in Hin2.
    exact (traced_functional _ _ _ _ _ _ Hin2 Hout1).
Qed.


(** X7: for 4 to 1000 drawing segments [processFeature] comes to an end
    within [segments + 2] loop iterations whatever the collaborators
    answer: it hands back no feature or one, and a larger iteration bound
    changes nothing. *)
Theorem X7_processFeature_ends_for_usual_segment_counts
    (self0 self : CreateDonutAlgorithm) (parameters : Parameters)
    (feedback feedback' : QgsProcessingFeedback)
    (feature : QgsFeature) (context : QgsExpressionContext) :
  prepareAlgorithm self0 parameters feedback = Some (true, self, feedback') ->
  (4 <= PrmDrawingSegments parameters <= 1000)%Z ->
  exists out self',
    (List.length out <= 1)%nat /\
    forall extra,
      processFeature (Z.to_nat (PrmDrawingSegments parameters) + 2 + extra)
        feature context self = Return out self'.
Proof.
  intros Hprep Hrange.
  destruct (processFeature_returns_in_range _ _ _ _ _ feature context Hprep Hrange)
    as [H | [f' H]].
  - exists [], (counted_bad self). split; [cbn; lia | ].
    intros extra. exact (processFeature_more_fuel _ _ _ _ _ _ H extra).
  - exists [f'], self. split; [cbn; lia | ].
    intros extra. exact (processFeature_more_fuel _ _ _ _ _ _ H extra).
Qed.

End Rings.

(** The loop asks the solver about this centre and the radii in use. *)
Lemma while_angle_solver_ext (E1 E2 : Externals) (fuel : nat)
    (spacing lat lon inner_rad outer_rad : float) :
  (forall angle, @Direct E1 lat lon angle outer_rad = @Direct E2 lat lon angle outer_rad) ->
  ((inner_rad =? 0) = false ->
   forall angle, @Direct E1 lat lon angle inner_rad = @Direct E2 lat lon angle inner_rad) ->
  forall angle pts_in pts_out,
    @while_angle E1 fuel spacing lat lon inner_rad outer_rad angle pts_in pts_out
    = @while_angle E2 fuel spacing lat lon inner_rad outer_rad angle pts_in pts_out.
Proof.
  intros Hout Hin.
  induction fuel as [ | fuel IH]; intros angle pts_in pts_out; cbn; [reflexivity | ].
  destruct (angle <? 360); [ | reflexivity].
  unfold direct_point. rewrite (Hout angle).
  destruct (inner_rad =? 0) eqn:Hz; cbn.
  - destruct (@Direct E2 lat lon angle outer_rad) as [[lat2 lon2] | ]; [ | reflexivity].
    apply IH.
  - rewrite (Hin eq_refl angle).
    destruct (@Direct E2 lat lon angle inner_rad) as [[lat1 lon1] | ]; cbn; [ | reflexivity].
    destruct (@Direct E2 lat lon angle outer_rad) as [[lat2 lon2] | ]; [ | reflexivity].
    apply IH.
Qed.

(** X5: the rings are a function of what the solver answers from this
    centre at the outer radius and, when the inner radius is not 0, at the
    inner radius.  With an inner radius of 0 the solver is not consulted
    for the inner ring at all: two solvers that agree at the outer radius
    give the same result whatever they would do at distance 0. *)
Theorem X5_solver_is_asked_for_the_radii_in_use
    (E1 E2 : Externals) (fuel : nat) (spacing lat lon inner_rad outer_rad : float) :
  (forall angle, @Direct E1 lat lon angle outer_rad = @Direct E2 lat lon angle outer_rad) ->
  ((inner_rad =? 0) = false ->
   forall angle, @Direct E1 lat lon angle inner_rad = @Direct E2 lat lon angle inner_rad) ->
  @build_rings E1 fuel spacing lat lon inner_rad outer_rad
  = @build_rings E2 fuel spacing lat lon inner_rad outer_rad.
Proof.
  intros Hout Hin. unfold build_rings.
  rewrite (while_angle_solver_ext E1 E2 fuel spacing lat lon inner_rad outer_rad Hout Hin).
  reflexivity.
Qed.

Section Features.

Context {E : Externals}.


(** X10: [processFeature] lets no exception out, hands back at most one
    feature, and changes nothing of [self] but the counter: either one
    feature with [self] as it was, or no feature with the counter one
    higher. *)
Theorem X10_processFeature_contains_its_failures
    (fuel : nat) (feature : QgsFeature) (context : QgsExpressionContext)
    (self : CreateDonutAlgorithm) :
  (forall self', processFeature fuel feature context self <> Except self') /\
  (forall out self',
     processFeature fuel feature context self = Return out self' ->
     (out = [] /\ self' = counted_bad self) \/ (exists f', out = [f'] /\ self' = self)).
Proof.
  destruct (processFeature_cases fuel feature context self) as [H | [H | [f' H]]];
    rewrite H; split; try discriminate.
  - intros out self' [= <- <-]. left. split; reflexivity.
  - intros out self' [= <- <-]. right. exists f'. split; reflexivity.
Qed.

Lemma resolve_inner_radius_skips (self : CreateDonutAlgorithm) (context : QgsExpressionContext) :
  resolve_inner_radius self context = Some None ->
  exists property value,
    inner_radius_dyn self = true /\
    inner_radius_property self = Some property /\
    valueAsDouble property context (inner_radius self) = (value, false).
Proof.
  unfold resolve_inner_radius.
  destruct (inner_radius_dyn self); [ | discriminate].
  destruct (inner_radius_property self) as [property | ]; [ | discriminate].
  destruct (valueAsDouble property context (inner_radius self)) as [value ok] eqn:Hval.
  destruct ok; cbn; [discriminate | ].
  intros _. exists property, value. repeat split. assumption.
Qed.

Lemma resolve_outer_radius_skips (self : CreateDonutAlgorithm) (context : QgsExpressionContext) :
  resolve_outer_radius self context = Some None ->
  exists property value ok,
    outer_radius_dyn self = true /\
    outer_radius_property self = Some property /\
    valueAsDouble property context (outer_radius self) = (value, ok) /\
    (ok = false \/ (value * measure_factor self <=? 0) = true).
Proof.
  unfold resolve_outer_radius.
  destruct (outer_radius_dyn self); [ | discriminate].
  destruct (outer_radius_property self) as [property | ]; [ | discriminate].
  destruct (valueAsDouble property context (outer_radius self)) as [value ok] eqn:Hval.
  destruct (negb ok || (value * measure_factor self <=? 0)) eqn:Hbad; [ | discriminate].
  intros _. exists property, value, ok. repeat split; try assumption.
  apply orb_true_iff in Hbad. destruct Hbad as [Hok | Hle]; [left | right; assumption].
  destruct ok; [discriminate | reflexivity].
Qed.

(** X11: a feature is skipped for a per-feature error only.  Whenever
    [processFeature] hands back no feature, a data-defined radius failed
    to evaluate, the data-defined outer radius was not positive, or an
    exception was raised in the [try] block. *)
Theorem X11_skipped_only_for_an_error
    (fuel : nat) (feature : QgsFeature) (context : QgsExpressionContext)
    (self self' : CreateDonutAlgorithm) :
  processFeature fuel feature context self = Return [] self' ->
  per_feature_error fuel self feature context.
Proof.
  unfold processFeature, try_except.
  destruct (try_block fuel feature context self) as [out s | s | ] eqn:Hbody;
    [ | intros _; exact (exception_raised _ _ _ _ s Hbody) | discriminate].
  intros [= -> ->]. revert Hbody.
  unfold try_block, make_donut, bind, call, get_self, incr_num_bad, ret, raise, run_outcome.
  destruct (asPoint (geometry feature)) as [pt | ]; [ | discriminate].
  destruct (to_4326 self pt) as [c | ]; [ | discriminate].
  destruct (resolve_inner_radius self context) as [[inner_rad | ] | ] eqn:Hin;
    [ | | discriminate].
  - destruct (resolve_outer_radius self context) as [[outer_rad | ] | ] eqn:Hout;
      [ | | discriminate].
    + destruct (build_rings fuel (pt_spacing self) (QgsPointXY.y c) (QgsPointXY.x c)
                  inner_rad outer_rad) as [[pts_in pts_out] | | ]; try discriminate.
      cbn [fst snd].
      destruct (normalize_rings inner_rad pts_in pts_out) as [n_in n_out].
      destruct (to_sink self inner_rad n_in n_out) as [[pts_in' pts_out'] | ]; discriminate.
    + intros _.
      destruct (resolve_outer_radius_skips _ _ Hout)
        as (property & value & ok & Hdyn & Hprop & Hval & [-> | Hle]).
      * exact (outer_expression_failed _ _ _ _ property value Hdyn Hprop Hval).
      * exact (outer_radius_not_positive _ _ _ _ property value ok Hdyn Hprop Hval Hle).
  - intros _.
    destruct (resolve_inner_radius_skips _ _ Hin) as (property & value & Hdyn & Hprop & Hval).
    exact (inner_expression_failed _ _ _ _ property value Hdyn Hprop Hval).
Qed.

Lemma transform_all_transformed (t : QgsCoordinateTransform) :
  forall pts pts', transform_all t pts = Some pts' -> transformed t pts pts'.
Proof.
  unfold transformed.
  induction pts as [ | p rest IH]; intros pts' H; cbn in H.
  - injection H as <-. constructor.
  - destruct (transform t p) as [q | ] eqn:Hq; [ | discriminate].
    destruct (transform_all t rest) as [rest' | ]; [ | discriminate].
    injection H as <-. constructor; [assumption | apply IH; reflexivity].
Qed.

Lemma transformed_closed (t : QgsCoordinateTransform) (pts pts' : Ring) :
  transformed t pts pts' -> closed pts -> closed pts'.
Proof.
  unfold transformed. intros H (p & rest & ->).
  inversion H as [ | p0 q l l' Hq Hrest]; subst.
  apply Forall2_app_inv_l in Hrest. destruct Hrest as (rest' & last' & Hr & Hl & ->).
  inversion Hl as [ | p1 q' l1 l1' Hq' Hnil]; subst. inversion Hnil; subst.
  exists q, rest'. congruence.
Qed.

Lemma map_closed (f : QgsPointXY.t -> QgsPointXY.t) (pts : Ring) :
  closed pts -> closed (map f pts).
Proof.
  intros (p & rest & ->). exists (f p), (map f rest).
  cbn. rewrite map_app. reflexivity.
Qed.

(** X9: the rings of an emitted geometry are closed and have one size.
    When [makeIdlCrossingsPositive] rewrites a ring point by point, every
    ring of an emitted geometry ends with its first point, also after the
    transform to the layer's reference system, and the geometry has one
    ring or two rings with the same number of points. *)
Theorem X9_emitted_rings_are_closed
    (fuel : nat) (feature : QgsFeature) (context : QgsExpressionContext)
    (self self' : CreateDonutAlgorithm) (f' : QgsFeature) :
  (forall pts, exists f, makeIdlCrossingsPositive pts true = map f pts) ->
  processFeature fuel feature context self = Return [f'] self' ->
  Forall closed (rings_of_geometry (geometry f')) /\
  exists pts_out others,
    rings_of_geometry (geometry f') = pts_out :: others /\
    Forall (fun pts => List.length pts = List.length pts_out) others /\
    (List.length others <= 1)%nat.
Proof.
  intros Hpointwise Hrun.
  destruct (processFeature_emitted _ _ _ _ _ _ _ Hrun)
    as (pt & c & ri & ro & pin & pout & pin' & pout'
        & _ & _ & _ & _ & Hrings & Hsink & -> & _ & _).
  rewrite geometry_export_attributes.
  destruct (build_rings_closed _ _ _ _ _ _ _ _ Hrings) as (Hcout & Hcin).
  destruct (build_rings_done _ _ _ _ _ _ _ _ Hrings) as (azs & _ & Htout & Htin).
  (* the rings after the antimeridian step *)
  assert (Hnorm : closed (snd (normalize_rings ri pin pout)) /\
                  List.length (snd (normalize_rings ri pin pout)) = List.length pout /\
                  ((ri =? 0) = false ->
                   closed (fst (normalize_rings ri pin pout)) /\
                   List.length (fst (normalize_rings ri pin pout)) = List.length pin)).
  { unfold normalize_rings. destruct (hasIdlCrossing pout); cbn [fst snd].
    - destruct (Hpointwise pout) as (f & ->).
      split; [apply map_closed; exact Hcout | split; [apply length_map | ]].
      intros Hnz. rewrite Hnz in *. cbn [negb].
      destruct (Hpointwise pin) as (g & ->).
      split; [apply map_closed; exact Hcin | apply length_map].
    - split; [exact Hcout | split; [reflexivity | ]].
      intros Hnz. rewrite Hnz in Hcin. split; [exact Hcin | reflexivity]. }
  destruct Hnorm as (Hnout & Hlout & Hnin).
  (* the rings after the transform *)
  assert (Hfinal : closed pout' /\ List.length pout' = List.length pout /\
                   ((ri =? 0) = false ->
                    closed pin' /\ List.length pin' = List.length pin)).
  { unfold to_sink in Hsink. destruct (to_sink_crs self) as [t | ].
    - destruct (ri =? 0) eqn:Hz; cbn [negb] in Hsink.
      + destruct (transform_all t (snd (normalize_rings ri pin pout))) as [out' | ] eqn:Ho;
          [ | discriminate].
        injection Hsink as <- <-.
        pose proof (transform_all_transformed _ _ _ Ho) as Ht.
        split; [exact (transformed_closed _ _ _ Ht Hnout) | ].
        split; [ | discriminate].
        rewrite <- Hlout. symmetry. exact (Forall2_length Ht).
      + destruct (transform_all t (fst (normalize_rings ri pin pout))) as [in' | ] eqn:Hi;
          [ | discriminate].
        destruct (transform_all t (snd (normalize_rings ri pin pout))) as [out' | ] eqn:Ho;
          [ | discriminate].
        injection Hsink as <- <-.
        pose proof (transform_all_transformed _ _ _ Ho) as Ht.
        pose proof (transform_all_transformed _ _ _ Hi) as Hti.
        destruct (Hnin eq_refl) as (Hci & Hli).
        split; [exact (transformed_closed _ _ _ Ht Hnout) | ].
        split; [rewrite <- Hlout; symmetry; exact (Forall2_length Ht) | ].
        intros _. split; [exact (transformed_closed _ _ _ Hti Hci) | ].
        rewrite <- Hli. symmetry. exact (Forall2_length Hti).
    - injection Hsink as <- <-. split; [assumption | split; [assumption | ]]. assumption. }
  destruct Hfinal as (Hfout & Hflen & Hfin).
  unfold donut_geometry.
  destruct (ri =? 0) eqn:Hz.
  - assert (Hshape : rings_of_geometry
                       (if (shape_type self =? 0)%Z
                        then fromPolygonXY [pout'] else fromMultiPolylineXY [pout'])
                     = [pout']) by (destruct (shape_type self =? 0)%Z; reflexivity).
    rewrite Hshape. split; [repeat constructor; assumption | ].
    exists pout', []. repeat split; [constructor | cbn; lia].
  - assert (Hshape : rings_of_geometry
                       (if (shape_type self =? 0)%Z
                        then fromPolygonXY [pout'; pin'] else fromMultiPolylineXY [pout'; pin'])
                     = [pout'; pin']) by (destruct (shape_type self =? 0)%Z; reflexivity).
    rewrite Hshape. destruct (Hfin eq_refl) as (Hcin' & Hlin').
    split; [repeat constructor; assumption | ].
    exists pout', [pin']. repeat split; [ | cbn; lia].
    constructor; [ | constructor].
    rewrite Hlin', Hflen, (traced_length _ _ _ _ _ Htin), (traced_length _ _ _ _ _ Htout).
    reflexivity.
Qed.

End Features.

Section Configuration.

Context {E : Externals}.

Variable DISTANCE_LABELS : list string.

Lemma prepared_transforms
    (self0 self : CreateDonutAlgorithm) (parameters : Parameters)
    (feedback feedback' : QgsProcessingFeedback) :
  prepareAlgorithm self0 parameters feedback = Some (true, self, feedback') ->
  (sourceCrs (INPUT parameters) = epsg4326 /\
   geom_to_4326 self = None /\ to_sink_crs self = None) \/
  (sourceCrs (INPUT parameters) <> epsg4326 /\
   geom_to_4326 self = Some (mkTransform (sourceCrs (INPUT parameters)) epsg4326) /\
   to_sink_crs self = Some (mkTransform epsg4326 (sourceCrs (INPUT parameters)))).
Proof.
  unfold prepareAlgorithm. intros Hprep.
  destruct (PrmOuterRadius parameters <=? 0); [discriminate | ].
  destruct (PrmDrawingSegments parameters =? 0)%Z; [discriminate | ].
  injection Hprep as <- _. cbn [geom_to_4326 to_sink_crs].
  destruct (String.eqb_spec (sourceCrs (INPUT parameters)) epsg4326) as [Heq | Hneq].
  - left. cbn. repeat split. assumption.
  - right. cbn. repeat split. assumption.
Qed.

(** X12: what a successful [prepareAlgorithm] leaves behind, whatever the
    state of [self] before (a previous run included).  The log is
    untouched and the counter is back at 0; each radius is flagged as
    data-defined exactly when its property is at hand, so that resolving a
    radius never raises for a missing attribute; and the two transforms
    are both absent (layer in EPSG:4326) or both present and opposite. *)
Theorem X12_prepared_configuration
    (self0 self : CreateDonutAlgorithm) (parameters : Parameters)
    (feedback feedback' : QgsProcessingFeedback) :
  prepareAlgorithm self0 parameters feedback = Some (true, self, feedback') ->
  feedback' = feedback /\
  num_bad self = 0%Z /\
  (forall context,
     resolve_inner_radius self context <> None /\
     resolve_outer_radius self context <> None) /\
  ((sourceCrs (INPUT parameters) = epsg4326 /\
    geom_to_4326 self = None /\ to_sink_crs self = None) \/
   (sourceCrs (INPUT parameters) <> epsg4326 /\
    geom_to_4326 self = Some (mkTransform (sourceCrs (INPUT parameters)) epsg4326) /\
    to_sink_crs self = Some (mkTransform epsg4326 (sourceCrs (INPUT parameters))))).
Proof.
  intros Hprep. pose proof (prepared_transforms _ _ _ _ _ Hprep) as Htransforms.
  revert Htransforms. unfold prepareAlgorithm in Hprep.
  destruct (PrmOuterRadius parameters <=? 0); [discriminate | ].
  destruct (PrmDrawingSegments parameters =? 0)%Z; [discriminate | ].
  injection Hprep as <- <-. intros Htransforms.
  split; [reflexivity | split; [reflexivity | split; [ | exact Htransforms]]].
  - intros context. unfold resolve_inner_radius, resolve_outer_radius.
    cbn [inner_radius_dyn inner_radius_property outer_radius_dyn outer_radius_property
         inner_radius outer_radius measure_factor inner_radius_converted
         outer_radius_converted].
    split.
    + destruct (PrmInnerRadiusDynamic parameters) as [property | ]; [ | discriminate].
      destruct (valueAsDouble property context (PrmInnerRadius parameters)) as [value ok].
      destruct (negb ok); discriminate.
    + destruct (PrmOuterRadiusDynamic parameters) as [property | ]; [ | discriminate].
      destruct (valueAsDouble property context (PrmOuterRadius parameters)) as [value ok].
      destruct (negb ok || _); discriminate.
Qed.

(** X13: for a layer that is not in EPSG:4326, the centre given to the
    solver is the feature's point taken through the transform to
    EPSG:4326, and the emitted rings are the generated (and, on a
    crossing, normalized) rings taken point by point, in order, through
    the transform back to the layer. *)
Theorem X13_projected_layer_is_bridged_both_ways
    (self0 self : CreateDonutAlgorithm) (parameters : Parameters)
    (feedback feedback' : QgsProcessingFeedback)
    (fuel : nat) (feature : QgsFeature) (context : QgsExpressionContext)
    (f' : QgsFeature) (self' : CreateDonutAlgorithm) :
  prepareAlgorithm self0 parameters feedback = Some (true, self, feedback') ->
  sourceCrs (INPUT parameters) <> epsg4326 ->
  processFeature fuel feature context self = Return [f'] self' ->
  let to_geographic := mkTransform (sourceCrs (INPUT parameters)) epsg4326 in
  let to_layer := mkTransform epsg4326 (sourceCrs (INPUT parameters)) in
  exists pt c inner_rad outer_rad pts_in pts_out pts_in' pts_out',
    geometry feature = fromPointXY pt /\
    transform to_geographic pt = Some c /\
    build_rings fuel (pt_spacing self) (QgsPointXY.y c) (QgsPointXY.x c)
      inner_rad outer_rad = Done (pts_in, pts_out) /\
    geometry f' = donut_geometry self inner_rad pts_in' pts_out' /\
    transformed to_layer (snd (normalize_rings inner_rad pts_in pts_out)) pts_out' /\
    ((inner_rad =? 0) = false ->
     transformed to_layer (fst (normalize_rings inner_rad pts_in pts_out)) pts_in').
Proof.
  intros Hprep Hcrs Hrun to_geographic to_layer.
  destruct (prepared_transforms _ _ _ _ _ Hprep) as [(Heq & _) | (_ & Hg & Hs)];
    [contradiction | ].
  destruct (processFeature_emitted _ _ _ _ _ _ _ Hrun)
    as (pt & c & ri & ro & pin & pout & pin' & pout'
        & Hpt & Hc & _ & _ & Hrings & Hsink & -> & _ & _).
  exists pt, c, ri, ro, pin, pout, pin', pout'.
  split; [destruct (geometry feature); try discriminate; cbn in Hpt; congruence | ].
  unfold to_4326 in Hc. rewrite Hg in Hc.
  split; [exact Hc | split; [exact Hrings | ]].
  split; [apply geometry_export_attributes | ].
  unfold to_sink in Hsink. rewrite Hs in Hsink.
  destruct (ri =? 0); cbn [negb] in Hsink.
  - destruct (transform_all (mkTransform epsg4326 (sourceCrs (INPUT parameters)))
                (snd (normalize_rings ri pin pout))) as [out' | ] eqn:Ho; [ | discriminate].
    injection Hsink as <- <-.
    split; [exact (transform_all_transformed _ _ _ Ho) | discriminate].
  - destruct (transform_all (mkTransform epsg4326 (sourceCrs (INPUT parameters)))
                (fst (normalize_rings ri pin pout))) as [in' | ] eqn:Hi; [ | discriminate].
    destruct (transform_all (mkTransform epsg4326 (sourceCrs (INPUT parameters)))
                (snd (normalize_rings ri pin pout))) as [out' | ] eqn:Ho; [ | discriminate].
    injection Hsink as <- <-.
    split; [exact (transform_all_transformed _ _ _ Ho) | ].
    intros _. exact (transform_all_transformed _ _ _ Hi).
Qed.

(** X14: the declared minima against [prepareAlgorithm].  For values that
    pass the lower-bound test of the declarations of [initParameters]
    (outer radius not below 0, drawing segments not below 4),
    [prepareAlgorithm] never raises ([360.0 / segments] has a non-zero
    divisor), and it refuses the run exactly for an outer radius equal to
    0: the declared minimum admits a value the method rejects. *)
Theorem X14_declared_minima_and_prepareAlgorithm
    (self0 : CreateDonutAlgorithm) (parameters : Parameters)
    (feedback : QgsProcessingFeedback) :
  not_below (minValue_of "OuterRadius" (parameterDefinitions DISTANCE_LABELS))
    (PrmOuterRadius parameters) = true ->
  not_below (minValue_of "DrawingSegments" (parameterDefinitions DISTANCE_LABELS))
    (float_of_int (PrmDrawingSegments parameters)) = true ->
  exists ok self feedback',
    prepareAlgorithm self0 parameters feedback = Some (ok, self, feedback') /\
    (ok = false <-> (PrmOuterRadius parameters =? 0) = true).
Proof.
  cbn [parameterDefinitions minValue_of String.eqb Ascii.eqb Bool.eqb not_below].
  intros Hradius Hsegments.
  apply negb_true_iff in Hradius. apply negb_true_iff in Hsegments.
  unfold prepareAlgorithm.
  destruct (PrmOuterRadius parameters <=? 0) eqn:Hle.
  - eexists. eexists. eexists. split; [reflexivity | ].
    split; [intros _; exact (leb_not_ltb_eqb _ _ Hle Hradius) | reflexivity].
  - destruct (PrmDrawingSegments parameters =? 0)%Z eqn:Hzero.
    + apply Z.eqb_eq in Hzero. rewrite Hzero in Hsegments.
      vm_compute in Hsegments. discriminate.
    + eexists. eexists. eexists. split; [reflexivity | ].
      split; [discriminate | ].
      intros Heq. rewrite (eqb_true_leb_true _ _ Heq) in Hle. discriminate.
Qed.

End Configuration.

(** * The embedding at work on explicit inputs *)

#[local] Existing Instance Sample.externals.

(** A layer in metres: the centre goes to EPSG:4326, the rings come back,
    and the original coordinates are those of the layer. *)
Example projected_layer_is_bridged :
  exists f' self,
    processAlgorithm 6
      (Sample.parameters 1 20 0 None None 4 Sample.cylindrical
         [Sample.point_feature 111319.49079327357 0 []])
    = Completed [f'] self [] /\
    geom_to_4326 self = Some (mkTransform Sample.cylindrical epsg4326) /\
    to_sink_crs self = Some (mkTransform epsg4326 Sample.cylindrical) /\
    num_bad self = 0%Z.
Proof. eexists. eexists. vm_compute. repeat split. Qed.

(** A layer in a reference system the sample bridge does not know: the
    transform raises, the feature is counted and the run completes. *)
Example unknown_layer_is_skipped :
  exists self,
    processAlgorithm 6
      (Sample.parameters 1 20 0 None None 4 "EPSG:3857"%string [Sample.at_origin])
    = Completed [] self
        [pushInfo "1 out of 1 features had invalid parameters and were ignored."].
Proof. eexists. vm_compute. reflexivity. Qed.

(** The default of 36 segments does give 37 points per ring. *)
Example default_segments_ring :
  option_map (@List.length float) (azimuths 40 (360.0 / float_of_int 36) 0) = Some 36%nat.
Proof. vm_compute. reflexivity. Qed.

(** The segment counts from 4 to 60 for which the loop runs once more
    than the count. *)
Example segment_counts_with_an_extra_point :
  filter (fun n => negb (Nat.eqb (List.length (Sample.angles_of
                                    (azimuths 100 (360.0 / float_of_int (Z.of_nat n)) 0))) n))
         (seq 4 57)
  = [13; 19; 25; 27; 28; 29; 34; 35; 38; 39; 41; 42; 49; 50; 52; 53; 58]%nat.
Proof. vm_compute. reflexivity. Qed.

Lemma C1_thirteen_segments_witness :
  exists pts_in pts_out,
    build_rings 15 (pt_spacing (Sample.prepared (Sample.scenarioA 13))) 0 0 10000 20000
      = Done (pts_in, pts_out) /\
    List.length pts_out = 15%nat /\
    exists p rest, pts_out = p :: rest ++ [p].
Proof.
  eexists. eexists. split.
  - vm_compute. reflexivity.
  - eapply (C1_thirteen_segments_give_fifteen_points initParameters
              (Sample.prepared (Sample.scenarioA 13)) (Sample.scenarioA 13) [] [] 15
              0 0 10000 20000).
    + reflexivity.
    + vm_compute. reflexivity.
    + vm_compute. reflexivity.
Defined.

Lemma C10_rings_share_azimuths_witness :
  exists pts_in pts_out,
    (50000 =? 0) = false /\
    build_rings 5 90 0 179.9 50000 5000 = Done (pts_in, pts_out) /\
    List.length pts_in = List.length pts_out /\
    (exists azs, traced 0 179.9 50000 azs pts_in /\ traced 0 179.9 5000 azs pts_out) /\
    (exists q rest, pts_in = q :: rest ++ [q]) /\
    (exists p rest, pts_out = p :: rest ++ [p]).
Proof.
  eexists. eexists. split; [vm_compute; reflexivity | ].
  split; [vm_compute; reflexivity | ].
  eapply (C10_rings_share_azimuths 5 90 0 179.9 50000 5000).
  - vm_compute. reflexivity.
  - vm_compute. reflexivity.
Defined.

(** A disc: inner radius 0, polygon output. *)
Lemma C5_zero_inner_radius_witness :
  exists f' self',
    processFeature 5 Sample.at_origin Sample.at_origin (Sample.prepared Sample.disc)
      = Return [f'] self' /\
    resolve_inner_radius (Sample.prepared Sample.disc) Sample.at_origin = Some (Some 0) /\
    (0 =? 0) = true /\
    exists pts_out, geometry f' = one_ring_geometry (Sample.prepared Sample.disc) pts_out.
Proof.
  eexists. eexists. split; [vm_compute; reflexivity | ].
  split; [vm_compute; reflexivity | ].
  split; [vm_compute; reflexivity | ].
  eapply (C5_zero_inner_radius_no_inner_ring 5 Sample.at_origin Sample.at_origin
            (Sample.prepared Sample.disc) _ _ 0).
  - vm_compute. reflexivity.
  - vm_compute. reflexivity.
  - vm_compute. reflexivity.
Defined.

(** A 50 km outer ring next to the antimeridian: it crosses, and both
    rings are shifted. *)
Lemma C2_outer_ring_decides_witness :
  exists pts_in pts_out f' self',
    build_rings 5 90 0 179.9 10000 50000 = Done (pts_in, pts_out) /\
    hasIdlCrossing pts_out = true /\
    processFeature 5 (Sample.near_antimeridian []) (Sample.near_antimeridian [])
      (Sample.prepared Sample.wide) = Return [f'] self' /\
    let side := fun ring : Ring =>
                  if hasIdlCrossing pts_out then makeIdlCrossingsPositive ring true else ring in
    exists pts_in' pts_out',
      to_sink (Sample.prepared Sample.wide) 10000 (side pts_in) (side pts_out)
        = Some (pts_in', pts_out') /\
      geometry f' = two_ring_geometry (Sample.prepared Sample.wide) pts_in' pts_out'.
Proof.
  eexists. eexists. eexists. eexists.
  split; [vm_compute; reflexivity | ].
  split; [vm_compute; reflexivity | ].
  split; [vm_compute; reflexivity | ].
  eapply (C2_outer_ring_decides_normalization 5 (Sample.near_antimeridian [])
            (Sample.near_antimeridian []) (Sample.prepared Sample.wide) _ _
            (QgsPointXY.make 179.9 0) (QgsPointXY.make 179.9 0) 10000 50000).
  - reflexivity.
  - reflexivity.
  - vm_compute. reflexivity.
  - vm_compute. reflexivity.
  - vm_compute. reflexivity.
  - vm_compute. reflexivity.
  - vm_compute. reflexivity.
Defined.

(** C2 (as stated) fails: with an inner radius of 50 km and an outer
    radius of 5 km at longitude 179.9, the inner ring crosses the
    antimeridian and the outer ring does not.  The claim would have the
    emitted inner ring shifted to positive longitudes; the code emits it
    untouched, with its longitude of -179.65. *)
Lemma C2_counterexample_only_inner_ring_crosses :
  ~ (forall (E : Externals) (fuel : nat) (feature : QgsFeature) (context : QgsExpressionContext)
       (self self' : CreateDonutAlgorithm) (f' : QgsFeature) (pt c : QgsPointXY.t)
       (inner_rad outer_rad : float) (pts_in pts_out : Ring),
       asPoint (geometry feature) = Some pt ->
       to_4326 self pt = Some c ->
       resolve_inner_radius self context = Some (Some inner_rad) ->
       resolve_outer_radius self context = Some (Some outer_rad) ->
       (inner_rad =? 0) = false ->
       build_rings fuel (pt_spacing self) (QgsPointXY.y c) (QgsPointXY.x c)
         inner_rad outer_rad = Done (pts_in, pts_out) ->
       processFeature fuel feature context self = Return [f'] self' ->
       hasIdlCrossing pts_in = true \/ hasIdlCrossing pts_out = true ->
       exists pts_in' pts_out',
         to_sink self inner_rad (makeIdlCrossingsPositive pts_in true)
           (makeIdlCrossingsPositive pts_out true) = Some (pts_in', pts_out') /\
         geometry f' = two_ring_geometry self pts_in' pts_out').
Proof.
  intros claim.
  pose (self := Sample.prepared Sample.inverted).
  pose (feature := Sample.near_antimeridian []).
  pose (rings := Sample.rings_of (build_rings 5 90 0 179.9 50000 5000)).
  pose (f' := Sample.feature_of (processFeature 5 feature feature self)).
  assert (Hcross : hasIdlCrossing (fst rings) = true) by (vm_compute; reflexivity).
  destruct (claim Sample.externals 5%nat feature feature self self f'
              (QgsPointXY.make 179.9 0) (QgsPointXY.make 179.9 0) 50000 5000
              (fst rings) (snd rings))
    as (pts_in' & pts_out' & Hsink & Hgeom);
    try (vm_compute; reflexivity).
  - left. exact Hcross.
  - vm_compute in Hsink. injection Hsink as <- <-.
    apply (f_equal (fun g => Sample.has_negative_longitude (Sample.inner_ring g))) in Hgeom.
    vm_compute in Hgeom. discriminate.
Qed.

(** A feature whose inner-radius attribute is no number, followed by a
    usual one. *)
Lemma C3_feature_error_witness :
  per_feature_error 5 (Sample.prepared (Sample.by_attributes [Sample.unreadable; Sample.usual]))
    Sample.unreadable Sample.unreadable /\
  processFeature 5 Sample.unreadable Sample.unreadable
    (Sample.prepared (Sample.by_attributes [Sample.unreadable; Sample.usual]))
    = Return [] (counted_bad
                   (Sample.prepared (Sample.by_attributes [Sample.unreadable; Sample.usual]))) /\
  (Sample.unreadable = Sample.unreadable ->
   forall rest,
     processFeatures 5 (Sample.unreadable :: rest)
       (Sample.prepared (Sample.by_attributes [Sample.unreadable; Sample.usual]))
     = processFeatures 5 rest
         (counted_bad
            (Sample.prepared (Sample.by_attributes [Sample.unreadable; Sample.usual])))).
Proof.
  assert (Herr : per_feature_error 5
                   (Sample.prepared (Sample.by_attributes [Sample.unreadable; Sample.usual]))
                   Sample.unreadable Sample.unreadable).
  { apply (@inner_expression_failed Sample.externals _ _ _ _ 0%nat 10); vm_compute; reflexivity. }
  split; [exact Herr | ].
  exact (C3_feature_error_skips_and_counts 5 _ Sample.unreadable Sample.unreadable Herr).
Defined.

(** The specification's scenario C: a fixed outer radius of -5. *)
Lemma C4_nonpositive_outer_radius_witness :
  (PrmOuterRadius Sample.scenarioC <=? 0) = true /\
  (forall fuel,
     processAlgorithm fuel Sample.scenarioC
       = Aborted [reportError "Outer radius parameter must be greater than 0"]).
Proof.
  split; [vm_compute; reflexivity | ].
  apply (C4_nonpositive_outer_radius_aborts Sample.scenarioC). vm_compute. reflexivity.
Defined.

(** A layer in EPSG:4326. *)
Lemma C6_geographic_layer_witness :
  sourceCrs (INPUT (Sample.scenarioA 4)) = epsg4326 /\
  prepareAlgorithm initParameters (Sample.scenarioA 4) []
    = Some (true, Sample.prepared (Sample.scenarioA 4), []) /\
  geom_to_4326 (Sample.prepared (Sample.scenarioA 4)) = None /\
  to_sink_crs (Sample.prepared (Sample.scenarioA 4)) = None.
Proof.
  split; [reflexivity | ].
  split; [vm_compute; reflexivity | ].
  destruct (C6_geographic_layer_skips_the_bridge initParameters
              (Sample.prepared (Sample.scenarioA 4)) (Sample.scenarioA 4) [] [])
    as (H1 & H2 & _).
  - reflexivity.
  - vm_compute. reflexivity.
  - split; assumption.
Defined.

(** Two iteration bounds and two counter values, one feature. *)
Lemma C7_output_is_a_function_witness :
  exists out1 out2 self1 self2,
    processFeature 5 Sample.at_origin Sample.at_origin (Sample.prepared (Sample.scenarioA 4))
      = Return out1 self1 /\
    processFeature 9 Sample.at_origin Sample.at_origin (Sample.prepared (Sample.scenarioA 4))
      = Return out2 self2 /\
    out1 = out2 /\ self1 = self2.
Proof.
  eexists. eexists. eexists. eexists.
  split; [vm_compute; reflexivity | ].
  split; [vm_compute; reflexivity | ].
  apply (proj1 (proj2 (C7_output_is_a_function_of_feature_and_configuration
                         Sample.at_origin Sample.at_origin
                         (Sample.prepared (Sample.scenarioA 4)))) 5%nat 9%nat).
  - vm_compute. reflexivity.
  - vm_compute. reflexivity.
Defined.

(** One feature out of two is skipped, and the run says so. *)
Lemma C8_summary_witness :
  exists sink self,
    processAlgorithm 5 (Sample.by_attributes [Sample.unreadable; Sample.usual])
      = Completed sink self
          [pushInfo "1 out of 2 features had invalid parameters and were ignored."] /\
    total_features self = 2%Z /\
    num_bad self = 1%Z.
Proof.
  eexists. eexists. split; [vm_compute; reflexivity | ].
  edestruct (C8_summary_only_when_a_feature_was_skipped 5
               (Sample.by_attributes [Sample.unreadable; Sample.usual]))
    as (Htotal & Hbad & _).
  - vm_compute. reflexivity.
  - split; [exact Htotal | exact Hbad].
Defined.

(** C8 (as stated) fails: a run in which no feature is skipped completes
    with an empty log; no count is reported. *)
Lemma C8_counterexample_nothing_reported_without_bad_feature :
  ~ (forall (E : Externals) (fuel : nat) (parameters : Parameters) (sink : list QgsFeature)
       (self : CreateDonutAlgorithm) (feedback : QgsProcessingFeedback),
       processAlgorithm fuel parameters = Completed sink self feedback ->
       In (summary self) feedback).
Proof.
  intros claim.
  pose (run := processAlgorithm 5 Sample.disc).
  assert (Hrun : exists sink self, run = Completed sink self []).
  { eexists. eexists. vm_compute. reflexivity. }
  destruct Hrun as (sink & self & Hrun).
  exact (claim Sample.externals 5%nat Sample.disc sink self [] Hrun).
Qed.

(** An inner radius of -10 km read from the attributes. *)
Lemma C9_negative_inner_radius_witness :
  exists pts_in pts_out,
    @valueAsDouble Sample.externals 0%nat Sample.negative_inner 10 = (-10, true) /\
    (-10 * 1000 <? 0) = true /\
    build_rings 5 90 0 0 (-10 * 1000) 20000 = Done (pts_in, pts_out) /\
    processFeature 5 Sample.negative_inner Sample.negative_inner
      (Sample.prepared (Sample.by_attributes [Sample.negative_inner]))
    = Return [setGeometry Sample.negative_inner (fromMultiPolylineXY [pts_out; pts_in])]
        (Sample.prepared (Sample.by_attributes [Sample.negative_inner])).
Proof.
  eexists. eexists.
  split; [vm_compute; reflexivity | ].
  split; [vm_compute; reflexivity | ].
  split; [vm_compute; reflexivity | ].
  eapply (proj1 (proj2 (@C9_negative_inner_radius_is_traced Sample.externals 5
            Sample.negative_inner Sample.negative_inner
            (Sample.prepared (Sample.by_attributes [Sample.negative_inner]))
            0%nat (-10) (QgsPointXY.make 0 0) (QgsPointXY.make 0 0) 20000
            _ _ _ _ _ _ _ _ _ _ _ _ _))).
  Unshelve.
  all: try (vm_compute; reflexivity).
Defined.

(** ** The further properties on explicit inputs *)

Lemma X1_exported_coordinates_witness :
  exists f' self',
    processFeature 6 Sample.in_metres Sample.in_metres (Sample.prepared Sample.exporting)
      = Return [f'] self' /\
    attributes f' = [QString "a"; QDouble Sample.metres_per_degree; QDouble 0].
Proof.
  eexists. eexists. split; [vm_compute; reflexivity | ].
  edestruct (X1_exported_coordinates_are_the_layer_s_own 6 Sample.in_metres Sample.in_metres
               (Sample.prepared Sample.exporting))
    as (pt & Hpt & Hattrs); [vm_compute; reflexivity | ].
  injection Hpt as <-. exact Hattrs.
Defined.


Lemma X3_declared_type_witness :
  exists f' self',
    processFeature 6 Sample.in_metres Sample.in_metres (Sample.prepared Sample.exporting)
      = Return [f'] self' /\
    outputWkbType (Sample.prepared Sample.exporting) QgsWkbTypes.Point = QgsWkbTypes.LineString /\
    wkbType (geometry f') = QgsWkbTypes.MultiLineString.
Proof.
  eexists. eexists. split; [vm_compute; reflexivity | ].
  edestruct (X3_declared_type_and_emitted_geometry 6 Sample.in_metres Sample.in_metres
               (Sample.prepared Sample.exporting)) as (_ & Hline);
    [vm_compute; reflexivity | ].
  apply Hline. vm_compute. discriminate.
Defined.

Lemma X4_ring_depends_on_its_own_radius_witness :
  exists pts_in1 pts_out1 pts_in2 pts_out2,
    build_rings 5 90 0 0 10000 20000 = Done (pts_in1, pts_out1) /\
    build_rings 7 90 0 0 0 20000 = Done (pts_in2, pts_out2) /\
    pts_out2 = pts_out1.
Proof.
  eexists. eexists. eexists. eexists.
  split; [vm_compute; reflexivity | ].
  split; [vm_compute; reflexivity | ].
  refine (proj1 (X4_ring_depends_on_its_own_radius 5 7 90 0 0 20000 10000 0 _ _ _ _ _) _);
    vm_compute; reflexivity.
Defined.

Lemma X5_solver_is_asked_witness :
  @build_rings Sample.externals 5 90 0 0 0 20000
  = @build_rings Sample.no_zero_distance 5 90 0 0 0 20000.
Proof.
  apply (X5_solver_is_asked_for_the_radii_in_use Sample.externals Sample.no_zero_distance
           5 90 0 0 0 20000).
  - intros angle. reflexivity.
  - intros Hnz. vm_compute in Hnz. discriminate.
Defined.


Lemma X7_processFeature_ends_witness :
  exists out self',
    (List.length out <= 1)%nat /\
    forall extra,
      processFeature (38 + extra) Sample.at_origin Sample.at_origin
        (Sample.prepared (Sample.scenarioA 36)) = Return out self'.
Proof.
  assert (Hprep : prepareAlgorithm initParameters (Sample.scenarioA 36) []
                  = Some (true, Sample.prepared (Sample.scenarioA 36), []))
    by (vm_compute; reflexivity).
  assert (Hrange : (4 <= PrmDrawingSegments (Sample.scenarioA 36) <= 1000)%Z)
    by (vm_compute; split; discriminate).
  exact (X7_processFeature_ends_for_usual_segment_counts initParameters
           (Sample.prepared (Sample.scenarioA 36)) (Sample.scenarioA 36) [] []
           Sample.at_origin Sample.at_origin Hprep Hrange).
Defined.


Lemma X9_emitted_rings_are_closed_witness :
  exists f' self',
    processFeature 5 (Sample.near_antimeridian []) (Sample.near_antimeridian [])
      (Sample.prepared Sample.wide) = Return [f'] self' /\
    Forall closed (rings_of_geometry (geometry f')).
Proof.
  eexists. eexists. split; [vm_compute; reflexivity | ].
  edestruct (X9_emitted_rings_are_closed 5 (Sample.near_antimeridian [])
               (Sample.near_antimeridian []) (Sample.prepared Sample.wide)) as (Hclosed & _);
    [intros pts; eexists; reflexivity | vm_compute; reflexivity | exact Hclosed].
Defined.

Lemma X10_processFeature_contains_witness :
  exists out self',
    processFeature 5 Sample.unreadable Sample.unreadable
      (Sample.prepared (Sample.by_attributes [Sample.unreadable])) = Return out self' /\
    ((out = [] /\
      self' = counted_bad (Sample.prepared (Sample.by_attributes [Sample.unreadable]))) \/
     (exists f', out = [f'] /\
                 self' = Sample.prepared (Sample.by_attributes [Sample.unreadable]))).
Proof.
  eexists. eexists. split; [vm_compute; reflexivity | ].
  apply (proj2 (X10_processFeature_contains_its_failures 5 Sample.unreadable Sample.unreadable
                  (Sample.prepared (Sample.by_attributes [Sample.unreadable])))).
  vm_compute. reflexivity.
Defined.

Lemma X11_skipped_only_for_an_error_witness :
  exists self',
    processFeature 5 Sample.unreadable Sample.unreadable
      (Sample.prepared (Sample.by_attributes [Sample.unreadable])) = Return [] self' /\
    per_feature_error 5 (Sample.prepared (Sample.by_attributes [Sample.unreadable]))
      Sample.unreadable Sample.unreadable.
Proof.
  eexists. split; [vm_compute; reflexivity | ].
  eapply (X11_skipped_only_for_an_error 5 Sample.unreadable Sample.unreadable
            (Sample.prepared (Sample.by_attributes [Sample.unreadable]))).
  vm_compute. reflexivity.
Defined.

Lemma X12_prepared_configuration_witness :
  prepareAlgorithm (counted_bad (Sample.prepared (Sample.scenarioA 4))) Sample.exporting []
    = Some (true, Sample.prepared Sample.exporting, []) /\
  num_bad (Sample.prepared Sample.exporting) = 0%Z /\
  geom_to_4326 (Sample.prepared Sample.exporting)
    = Some (mkTransform Sample.cylindrical epsg4326).
Proof.
  split; [vm_compute; reflexivity | ].
  destruct (X12_prepared_configuration (counted_bad (Sample.prepared (Sample.scenarioA 4)))
              (Sample.prepared Sample.exporting) Sample.exporting [] []
              ltac:(vm_compute; reflexivity))
    as (_ & Hbad & _ & [(Heq & _) | (_ & Hg & _)]).
  - discriminate Heq.
  - split; [exact Hbad | exact Hg].
Defined.

Lemma X13_projected_layer_witness :
  exists f' self' pts_in' pts_out',
    processFeature 6 Sample.in_metres Sample.in_metres (Sample.prepared Sample.exporting)
      = Return [f'] self' /\
    transform (mkTransform Sample.cylindrical epsg4326) (QgsPointXY.make Sample.metres_per_degree 0)
      = Some (QgsPointXY.make 1 0) /\
    geometry f' = fromMultiPolylineXY [pts_out'; pts_in'].
Proof.
  eexists. eexists. eexists. eexists.
  split; [vm_compute; reflexivity | ].
  split; [vm_compute; reflexivity | ].
  edestruct (X13_projected_layer_is_bridged_both_ways initParameters
               (Sample.prepared Sample.exporting) Sample.exporting [] []
               6 Sample.in_metres Sample.in_metres)
    as (pt & c & ri & ro & pin & pout & pin' & pout' & _ & _ & _ & _ & _ & _);
    [vm_compute; reflexivity | discriminate | vm_compute; reflexivity | ].
  vm_compute. reflexivity.
Defined.

Lemma X14_declared_minima_witness :
  not_below (minValue_of "OuterRadius" (@parameterDefinitions Sample.externals []))
    (PrmOuterRadius Sample.zero_outer) = true /\
  exists self feedback',
    prepareAlgorithm initParameters Sample.zero_outer []
      = Some (false, self, feedback').
Proof.
  split; [vm_compute; reflexivity | ].
  destruct (X14_declared_minima_and_prepareAlgorithm [] initParameters Sample.zero_outer []
              ltac:(vm_compute; reflexivity) ltac:(vm_compute; reflexivity))
    as (ok & self & feedback' & Hprep & Hok).
  rewrite (proj2 Hok ltac:(vm_compute; reflexivity)) in Hprep.
  exists self, feedback'. exact Hprep.
Defined.
